(** * Halide buffers: a shallow embedding of [Buffer.cpp] and [CopyElision.cpp]

    The development follows the two translation units:
    - overflow-checked size arithmetic ([checked_multiply]);
    - the reference-counted [BufferContents] object, its two constructors
      and its teardown ([destroy]);
    - the [Buffer] handle and its public operations;
    - the copy-elision lowering pass.

    Machine integers are values of [Z] with the wrap-around written out.
    Pointers are addresses in [Z] with [0] for [NULL]; heap objects live in
    a finite map from locations to [BufferContents]. *)

From Stdlib Require Import ZArith Lia Bool Ascii.
From stdpp Require Import gmap strings list pretty.

Local Open Scope Z_scope.

(** ** Machine integers *)

(** An unsigned integer of [w] bits keeps the low [w] bits of a value. *)
Definition wrap_unsigned (w v : Z) : Z := v mod 2 ^ w.

(** A signed integer of [w] bits, two's complement. *)
Definition wrap_signed (w v : Z) : Z :=
  (v + 2 ^ (w - 1)) mod 2 ^ w - 2 ^ (w - 1).

(** [size_t] and pointers are 64 bits wide; [int] and [int32_t] are 32. *)
Definition size_t_bits : Z := 64.
Definition to_size_t (v : Z) : Z := wrap_unsigned size_t_bits v.
Definition to_int (v : Z) : Z := wrap_signed 32 v.

(** ** Outcomes of a call

    [user_assert] and [internal_assert] abort the call with a message; a
    dereference of a null or dangling [ptr] has no defined behaviour and is
    kept apart from both. *)
Inductive failure : Type :=
  | user_error (msg : string)
  | internal_error (msg : string)
  | null_dereference
  | dangling_pointer
  | no_termination.

Inductive outcome (A : Type) : Type :=
  | Ok (a : A)
  | Fail (f : failure).
Arguments Ok {A} a.
Arguments Fail {A} f.

(** The line feed that ends most messages. *)
Definition nl : string := String "010"%char EmptyString.

Definition internal_assert (cond : bool) (msg : string) : outcome unit :=
  if cond then Ok tt else Fail (internal_error msg).

(** ** Overflow-checked multiplication *)

Section CheckedMultiply.
(** [w] is the width of the template parameter [UnsignedType]. *)
Variable w : Z.

(** The C++ function returns the flag and writes [result] through a
    reference; here the pair is (flag, value of [result] afterwards).
    On overflow [result] is left as it was. *)
Definition checked_multiply (a c result : Z) : bool * Z :=
  if a =? 0 then (true, 0)
  else
    let t := wrap_unsigned w (a * c) in
    if negb (t / a =? c) then (false, result)
    else (true, t).

(** [internal_assert(no_overflow)] aborts before the flag is returned, so
    a call that returns has returned [true]; the outcome carries the value
    of [result]. *)
Definition checked_multiply_assert (a b result : Z) : outcome Z :=
  let '(no_overflow, result') := checked_multiply a b result in
  match internal_assert no_overflow ("Overflow in checked multiply" +:+ nl) with
  | Ok _ => Ok result'
  | Fail f => Fail f
  end.
End CheckedMultiply.


(** ** The descriptor and the contents object *)

(** Modelled from the spec: [Type] (Type.h) is not among the sources. The
    spec gives it a code, a bit width and a lane count, and [bytes()] is the
    number of bytes one element takes: the bit width rounded up to bytes,
    with C++'s truncating division. *)
Inductive TypeCode : Type := Int | UInt | Float | Handle.

Record Type_ : Type := {
  code : TypeCode;
  bits : Z;
  width : Z
}.

Definition bytes (t : Type_) : Z := (bits t + 7) ÷ 8.

(** An array [int32_t a[4]]: four slots, no more and no fewer. Every
    access in the source either uses a constant index or comes after the
    assertion that the index lies in [0, 4). *)
Record array4 : Type := Array4 { slot0 : Z; slot1 : Z; slot2 : Z; slot3 : Z }.

(** [a[i]] *)
Definition get4 (a : array4) (i : Z) : Z :=
  if i =? 0 then slot0 a
  else if i =? 1 then slot1 a
  else if i =? 2 then slot2 a
  else slot3 a.

(** [a[i] = v] *)
Definition set4 (a : array4) (i : Z) (v : Z) : array4 :=
  if i =? 0 then Array4 v (slot1 a) (slot2 a) (slot3 a)
  else if i =? 1 then Array4 (slot0 a) v (slot2 a) (slot3 a)
  else if i =? 2 then Array4 (slot0 a) (slot1 a) v (slot3 a)
  else Array4 (slot0 a) (slot1 a) (slot2 a) v.

(** Modelled from the spec: [buffer_t] (the runtime header) is not among
    the sources; the fields are those of the spec's raw descriptor. *)
Record buffer_t : Type := {
  host : Z;
  dev : Z;
  elem_size : Z;
  host_dirty : bool;
  dev_dirty : bool;
  extent : array4;
  stride : array4;
  min : array4
}.

(** A callback [void f(void *user_context, buffer_t *buf)] may rewrite the
    descriptor it is handed: it is a function from the context and the
    descriptor before the call to the descriptor after it. *)
Definition callback : Type := Z -> buffer_t -> buffer_t.

(** Modelled from the spec: [JITCompiledModule] (JITCompiledModule.h) is
    not among the sources; these are the three optional callbacks of the
    spec's device-sync provider, the only members [Buffer.cpp] reads.
    [None] is a null function pointer. *)
Record JITCompiledModule : Type := {
  copy_to_host : option callback;
  copy_to_dev : option callback;
  free_dev_buffer : option callback
}.

(** A default-constructed module: no provider is bound. *)
Definition no_module : JITCompiledModule :=
  {| copy_to_host := None; copy_to_dev := None; free_dev_buffer := None |}.

Record BufferContents : Type := {
  buf : buffer_t;
  type : Type_;
  allocation : Z;
  ref_count : Z;
  name : string;
  source_module : JITCompiledModule
}.

Definition set_buf (f : buffer_t -> buffer_t) (c : BufferContents) :
  BufferContents :=
  {| buf := f (buf c); type := type c; allocation := allocation c;
     ref_count := ref_count c; name := name c;
     source_module := source_module c |}.

Definition set_ref_count (n : Z) (c : BufferContents) : BufferContents :=
  {| buf := buf c; type := type c; allocation := allocation c;
     ref_count := n; name := name c; source_module := source_module c |}.

Definition set_module (m : JITCompiledModule) (c : BufferContents) :
  BufferContents :=
  {| buf := buf c; type := type c; allocation := allocation c;
     ref_count := ref_count c; name := name c; source_module := m |}.

(** ** The world: heap objects and what the program did to the outside *)

Definition loc : Type := positive.

Inductive callback_name : Type :=
  | cb_copy_to_host | cb_copy_to_dev | cb_free_dev_buffer.

Inductive event : Type :=
  | ev_calloc (nmemb size ptr : Z)
  | ev_free (ptr : Z)
  | ev_call (f : callback_name) (user_context : Z) (b : buffer_t)
  | ev_delete (p : loc).

(** [heap] holds the live [BufferContents] objects; [trace] lists the
    events oldest first. *)
Record World : Type := {
  heap : gmap loc BufferContents;
  trace : list event
}.

Definition set_heap (f : gmap loc BufferContents -> gmap loc BufferContents)
  (w : World) : World :=
  {| heap := f (heap w); trace := trace w |}.

Definition log (e : event) (w : World) : World :=
  {| heap := heap w; trace := trace w ++ [e] |}.

(** What the environment answers: the pointer [calloc] returns ([0] when
    out of memory), the location [operator new] picks, and the two name
    generators of Util.h. *)
Record Runtime : Type := {
  calloc_result : Z;
  new_result : loc;
  unique_name : ascii -> string;
  make_entity_name : string -> ascii -> string
}.

(** ** A state and error monad over the world *)

Definition St (A : Type) : Type := World -> outcome (A * World).

Definition ret {A} (a : A) : St A := fun w => Ok (a, w).

Definition bind {A B} (m : St A) (k : A -> St B) : St B :=
  fun w =>
    match m w with
    | Ok (a, w') => k a w'
    | Fail f => Fail f
    end.

Definition lift {A} (o : outcome A) : St A :=
  fun w =>
    match o with
    | Ok a => Ok (a, w)
    | Fail f => Fail f
    end.

Definition emit (e : event) : St unit := fun w => Ok (tt, log e w).

Definition user_assert (cond : bool) (msg : string) : St unit :=
  fun w => if cond then Ok (tt, w) else Fail (user_error msg).

Notation "x <- m ;; k" := (bind m (fun x => k))
  (at level 100, m at next level, right associativity).
Notation "m ;;; k" := (bind m (fun _ => k))
  (at level 100, right associativity).

(** [p->...] on a raw pointer to contents. *)
Definition deref (p : loc) : St BufferContents :=
  fun w =>
    match heap w !! p with
    | Some c => Ok (c, w)
    | None => Fail dangling_pointer
    end.

Definition modify (p : loc) (f : BufferContents -> BufferContents) : St unit :=
  c <- deref p ;;
  fun w => Ok (tt, set_heap (insert p (f c)) w).

(** [calloc(nmemb, size)]: the environment chooses the block. *)
Definition calloc (rt : Runtime) (nmemb size : Z) : St Z :=
  emit (ev_calloc nmemb size (calloc_result rt)) ;;;
  ret (calloc_result rt).

Definition free (ptr : Z) : St unit := emit (ev_free ptr).

(** The pointers a trace hands to [free] that release memory: [free(NULL)]
    does nothing. *)
Definition freed (tr : list event) : list Z :=
  omap (fun e => match e with
                 | ev_free ptr => if ptr =? 0 then None else Some ptr
                 | _ => None
                 end) tr.

(** The blocks a trace asked [calloc] for: (bytes, pointer returned). *)
Definition callocs (tr : list event) : list (Z * Z) :=
  omap (fun e => match e with
                 | ev_calloc nmemb size ptr => Some (nmemb * size, ptr)
                 | _ => None
                 end) tr.

Definition calls_of (f : callback_name) (tr : list event) : list (Z * buffer_t) :=
  omap (fun e => match e with
                 | ev_call g ctx b =>
                     match f, g with
                     | cb_copy_to_host, cb_copy_to_host
                     | cb_copy_to_dev, cb_copy_to_dev
                     | cb_free_dev_buffer, cb_free_dev_buffer => Some (ctx, b)
                     | _, _ => None
                     end
                 | _ => None
                 end) tr.

(** Calling a bound callback on the descriptor inside the contents at [p]:
    [f(ctx, &p->buf)]. *)
Definition invoke (which : callback_name) (f : callback) (ctx : Z) (p : loc) :
  St unit :=
  c <- deref p ;;
  emit (ev_call which ctx (buf c)) ;;;
  modify p (set_buf (fun b => f ctx b)).

(** ** [BufferContents]: construction *)

(** [while ((size_t)(buf.host) & 0x1f) buf.host++;] The loop has no bound
    of its own in the source; [fuel] bounds the number of iterations. *)
Fixpoint align_host (fuel : nat) (h : Z) : outcome Z :=
  match fuel with
  | O => Fail no_termination
  | S fuel' =>
      if negb (Z.land h 31 =? 0) then align_host fuel' (to_size_t (h + 1))
      else Ok h
  end.

(** [if (x_size) checked_multiply_assert<size_t>(size, x_size, size);] *)
Definition multiply_in (x_size size : Z) : outcome Z :=
  if negb (x_size =? 0)
  then checked_multiply_assert size_t_bits size (to_size_t x_size) size
  else Ok size.

(** [n.empty() ? unique_name('b') : n] *)
Definition name_or_unique (rt : Runtime) (n : string) : string :=
  if bool_decide (n = "") then unique_name rt "b"%char else n.

Definition vector_type_msg : string :=
  "Can't create of a buffer of a vector type".

(** The allocating branch of the first constructor ([!data]): the pair is
    ([allocation], [buf.host]). *)
Definition allocate_host (rt : Runtime) (nm : string) (elem_size' size : Z) :
  St (Z * Z) :=
  size <- lift (checked_multiply_assert size_t_bits size
                  (to_size_t elem_size') size) ;;
  user_assert (size <? 2 ^ 31 - 1)
    ("Total size of buffer " +:+ nm +:+ " exceeds 2^31 - 1" +:+ nl) ;;;
  let size := to_size_t (size + 32) in
  allocation' <- calloc rt 1 size ;;
  user_assert (negb (allocation' =? 0))
    ("Out of memory allocating buffer " +:+ nm +:+ " of size " +:+
     pretty size +:+ nl) ;;;
  host' <- lift (align_host 32 allocation') ;;
  ret (allocation', host').

(** [BufferContents(Type t, int x_size, int y_size, int z_size, int w_size,
    uint8_t *data, const std::string &n)]. The products of [int]s that fill
    [stride] are computed in [int]. *)
Definition BufferContents_new (rt : Runtime) (t : Type_)
    (x_size y_size z_size w_size : Z) (data : Z) (n : string) :
  St BufferContents :=
  let nm := name_or_unique rt n in
  user_assert (width t =? 1) vector_type_msg ;;;
  let elem_size' := bytes t in
  size <- lift (multiply_in x_size 1) ;;
  size <- lift (multiply_in y_size size) ;;
  size <- lift (multiply_in z_size size) ;;
  size <- lift (multiply_in w_size size) ;;
  ah <- (if data =? 0 then allocate_host rt nm elem_size' size
         else ret (0, data)) ;;
  ret {| buf := {| host := snd ah;
                   dev := 0;
                   elem_size := elem_size';
                   host_dirty := false;
                   dev_dirty := false;
                   extent := Array4 x_size y_size z_size w_size;
                   stride := Array4 1 x_size (to_int (x_size * y_size))
                               (to_int (to_int (x_size * y_size) * z_size));
                   min := Array4 0 0 0 0 |};
         type := t;
         allocation := fst ah;
         ref_count := 0;
         name := nm;
         source_module := no_module |}.

(** [BufferContents(Type t, const buffer_t *b, const std::string &n)];
    [None] is a null [b]. *)
Definition BufferContents_wrap (rt : Runtime) (t : Type_)
    (b : option buffer_t) (n : string) : St BufferContents :=
  let nm := name_or_unique rt n in
  buf' <- (match b with
           | Some d => ret d
           | None => fun _ => Fail null_dereference
           end) ;;
  user_assert (width t =? 1) vector_type_msg ;;;
  ret {| buf := buf'; type := t; allocation := 0; ref_count := 0;
         name := nm; source_module := no_module |}.

(** ** [BufferContents]: teardown *)

(** [delete p] *)
Definition delete_contents (p : loc) : St unit :=
  fun w => Ok (tt, log (ev_delete p) (set_heap (delete p) w)).

(** [destroy<BufferContents>(const BufferContents *p)] *)
Definition destroy (p : loc) : St unit :=
  c <- deref p ;;
  match free_dev_buffer (source_module c) with
  | Some f => invoke cb_free_dev_buffer f 0 p
  | None => ret tt
  end ;;;
  c <- deref p ;;
  free (allocation c) ;;;
  delete_contents p.

(** ** The intrusive pointer

    Modelled from the spec: [IntrusivePtr] and [RefCount] (IntrusivePtr.h)
    are not among the sources. A handle shares ownership of one contents
    object; copying a handle adds a reference, releasing one removes a
    reference, and the contents are destroyed when the count reaches zero.
    [defined] is "the handle is non-null" and [same_as] is identity of the
    shared contents. *)
Definition incref (ptr : option loc) : St unit :=
  match ptr with
  | Some p => modify p (fun c => set_ref_count (ref_count c + 1) c)
  | None => ret tt
  end.

Definition decref (ptr : option loc) : St unit :=
  match ptr with
  | Some p =>
      modify p (fun c => set_ref_count (ref_count c - 1) c) ;;;
      c <- deref p ;;
      if ref_count c =? 0 then destroy p else ret tt
  | None => ret tt
  end.

Definition IntrusivePtr_defined (ptr : option loc) : bool :=
  match ptr with Some _ => true | None => false end.

Definition IntrusivePtr_same_as (ptr other : option loc) : bool :=
  bool_decide (ptr = other).

(** [operator new]: the object is placed where the environment says. *)
Definition new (rt : Runtime) (c : BufferContents) : St loc :=
  fun w => Ok (new_result rt, set_heap (insert (new_result rt) c) w).

(** [IntrusivePtr(T *p) : ptr(p) { incref(ptr); }] *)
Definition IntrusivePtr_new (p : loc) : St (option loc) :=
  incref (Some p) ;;; ret (Some p).

(** ** The [Buffer] handle *)

Record Buffer : Type := { contents : option loc }.

Definition size_or_zero (sizes : list Z) (index : nat) : Z :=
  if bool_decide (index < length sizes)%nat then sizes !!! index else 0.

Definition make_buffer_name (rt : Runtime) (n : string) : string :=
  if bool_decide (n = "") then make_entity_name rt "Halide::Buffer" "b"%char
  else n.

(** [Buffer(Type t, int x_size, int y_size, int z_size, int w_size,
    uint8_t *data, const std::string &name)] *)
Definition Buffer_new (rt : Runtime) (t : Type_)
    (x_size y_size z_size w_size : Z) (data : Z) (n : string) : St Buffer :=
  c <- BufferContents_new rt t x_size y_size z_size w_size data
         (make_buffer_name rt n) ;;
  p <- new rt c ;;
  ptr <- IntrusivePtr_new p ;;
  ret {| contents := ptr |}.

(** [Buffer(Type t, const std::vector<int32_t> &sizes, uint8_t *data,
    const std::string &name)] *)
Definition Buffer_of_sizes (rt : Runtime) (t : Type_) (sizes : list Z)
    (data : Z) (n : string) : St Buffer :=
  c <- BufferContents_new rt t (size_or_zero sizes 0) (size_or_zero sizes 1)
         (size_or_zero sizes 2) (size_or_zero sizes 3) data
         (make_buffer_name rt n) ;;
  p <- new rt c ;;
  ptr <- IntrusivePtr_new p ;;
  user_assert (bool_decide (length sizes <= 4)%nat)
    "Buffer dimensions greater than 4 are not supported." ;;;
  ret {| contents := ptr |}.

(** [Buffer(Type t, const buffer_t *buf, const std::string &name)] *)
Definition Buffer_wrap (rt : Runtime) (t : Type_) (b : option buffer_t)
    (n : string) : St Buffer :=
  c <- BufferContents_wrap rt t b (make_buffer_name rt n) ;;
  p <- new rt c ;;
  ptr <- IntrusivePtr_new p ;;
  ret {| contents := ptr |}.

(** The implicit copy constructor and the destructor of a handle are those
    of its intrusive pointer. *)
Definition Buffer_copy (b : Buffer) : St Buffer :=
  incref (contents b) ;;; ret {| contents := contents b |}.

Definition Buffer_release (b : Buffer) : St unit := decref (contents b).

Definition Buffer_defined (b : Buffer) : bool :=
  IntrusivePtr_defined (contents b).

Definition Buffer_same_as (b other : Buffer) : bool :=
  IntrusivePtr_same_as (contents b) (contents other).

(** [contents.ptr->]: no check of its own. *)
Definition contents_ptr (b : Buffer) : St loc :=
  match contents b with
  | Some p => ret p
  | None => fun _ => Fail null_dereference
  end.

Definition read {A} (b : Buffer) (f : BufferContents -> A) : St A :=
  p <- contents_ptr b ;;
  c <- deref p ;;
  ret (f c).

Definition write (b : Buffer) (f : BufferContents -> BufferContents) : St unit :=
  p <- contents_ptr b ;;
  modify p f.

Definition undefined_msg : string := "Buffer is undefined" +:+ nl.
Definition dimension_msg : string :=
  "We only support 4-dimensional buffers for now".

Definition Buffer_host_ptr (b : Buffer) : St Z :=
  user_assert (Buffer_defined b) undefined_msg ;;;
  read b (fun c => host (buf c)).

(** The pointer [&(contents.ptr->buf)] is the location of the contents:
    the descriptor lives inside them. *)
Definition Buffer_raw_buffer (b : Buffer) : St loc :=
  user_assert (Buffer_defined b) undefined_msg ;;;
  contents_ptr b.

Definition Buffer_device_handle (b : Buffer) : St Z :=
  user_assert (Buffer_defined b) undefined_msg ;;;
  read b (fun c => dev (buf c)).

Definition Buffer_host_dirty (b : Buffer) : St bool :=
  user_assert (Buffer_defined b) undefined_msg ;;;
  read b (fun c => host_dirty (buf c)).

Definition with_host_dirty (dirty : bool) (d : buffer_t) : buffer_t :=
  {| host := host d; dev := dev d; elem_size := elem_size d;
     host_dirty := dirty; dev_dirty := dev_dirty d;
     extent := extent d; stride := stride d; min := min d |}.

Definition Buffer_set_host_dirty (b : Buffer) (dirty : bool) : St unit :=
  user_assert (Buffer_defined b) undefined_msg ;;;
  write b (set_buf (with_host_dirty dirty)).

Definition Buffer_device_dirty (b : Buffer) : St bool :=
  user_assert (Buffer_defined b) undefined_msg ;;;
  read b (fun c => dev_dirty (buf c)).

(** [contents.ptr->buf.host_dirty = dirty;] *)
Definition Buffer_set_device_dirty (b : Buffer) (dirty : bool) : St unit :=
  user_assert (Buffer_defined b) undefined_msg ;;;
  write b (set_buf (with_host_dirty dirty)).

Definition in_range (dim : Z) : bool := (dim >=? 0) && (dim <? 4).

Definition Buffer_extent (b : Buffer) (dim : Z) : St Z :=
  user_assert (Buffer_defined b) undefined_msg ;;;
  user_assert (in_range dim) dimension_msg ;;;
  read b (fun c => get4 (extent (buf c)) dim).

(** [for (int i = 0; i < 4; i++) if (extent(i) == 0) return i;] over the
    indices still to visit, then [return 4]. *)
Fixpoint dimensions_from (b : Buffer) (todo : list Z) : St Z :=
  match todo with
  | [] => ret 4
  | i :: rest =>
      e <- Buffer_extent b i ;;
      if e =? 0 then ret i else dimensions_from b rest
  end.

Definition Buffer_dimensions (b : Buffer) : St Z :=
  dimensions_from b [0; 1; 2; 3].

(** [user_assert(defined());] carries no message here. *)
Definition Buffer_stride (b : Buffer) (dim : Z) : St Z :=
  user_assert (Buffer_defined b) "" ;;;
  user_assert (in_range dim) dimension_msg ;;;
  read b (fun c => get4 (stride (buf c)) dim).

Definition Buffer_min (b : Buffer) (dim : Z) : St Z :=
  user_assert (Buffer_defined b) undefined_msg ;;;
  user_assert (in_range dim) dimension_msg ;;;
  read b (fun c => get4 (min (buf c)) dim).

(** [buf.min[i] = m] *)
Definition with_min (i : Z) (m : Z) (d : buffer_t) : buffer_t :=
  {| host := host d; dev := dev d; elem_size := elem_size d;
     host_dirty := host_dirty d; dev_dirty := dev_dirty d;
     extent := extent d; stride := stride d; min := set4 (min d) i m |}.

Definition Buffer_set_min (b : Buffer) (m0 m1 m2 m3 : Z) : St unit :=
  user_assert (Buffer_defined b) undefined_msg ;;;
  write b (set_buf (with_min 0 m0)) ;;;
  write b (set_buf (with_min 1 m1)) ;;;
  write b (set_buf (with_min 2 m2)) ;;;
  write b (set_buf (with_min 3 m3)).

Definition Buffer_type (b : Buffer) : St Type_ :=
  user_assert (Buffer_defined b) undefined_msg ;;;
  read b type.

(** [return contents.ptr->name;] *)
Definition Buffer_name (b : Buffer) : St string :=
  read b name.

Definition Buffer_set_source_module (b : Buffer) (m : JITCompiledModule) :
  St unit :=
  user_assert (Buffer_defined b) undefined_msg ;;;
  write b (set_module m).

Definition Buffer_source_module (b : Buffer) : St JITCompiledModule :=
  user_assert (Buffer_defined b) undefined_msg ;;;
  read b source_module.

Definition Buffer_copy_to_host (b : Buffer) : St unit :=
  f <- read b (fun c => copy_to_host (source_module c)) ;;
  match f with
  | Some f =>
      p <- Buffer_raw_buffer b ;;
      invoke cb_copy_to_host f 0 p
  | None => ret tt
  end.

Definition Buffer_copy_to_dev (b : Buffer) : St unit :=
  f <- read b (fun c => copy_to_dev (source_module c)) ;;
  match f with
  | Some f =>
      p <- Buffer_raw_buffer b ;;
      invoke cb_copy_to_dev f 0 p
  | None => ret tt
  end.

Definition Buffer_free_dev_buffer (b : Buffer) : St unit :=
  f <- read b (fun c => free_dev_buffer (source_module c)) ;;
  match f with
  | Some f =>
      p <- Buffer_raw_buffer b ;;
      invoke cb_free_dev_buffer f 0 p
  | None => ret tt
  end.

(** ** The copy-elision pass

    [IRMutator2], [Stmt] and [Function] (IRMutator.h, IR.h, Function.h)
    are not among the sources, and nothing else says what the inherited
    [mutate] does. The pass is stated over them as parameters: [Stmt] and
    [Function_] are the two types and [IRMutator2_mutate] is the inherited
    [mutate], about which nothing is assumed. *)
Section CopyElisionPass.
Variables Stmt Function_ : Type.
Variable IRMutator2_mutate : Stmt -> Stmt.

(** [class CopyElision : public IRMutator2]: the constructor stores the
    environment. Both [visit] overrides of the class sit inside a comment,
    so [mutate] and every [visit] are the inherited ones. *)
Record CopyElision : Type := { env : gmap string Function_ }.

Definition CopyElision_mutate (self : CopyElision) (s : Stmt) : Stmt :=
  IRMutator2_mutate s.

(** [s = CopyElision(env).mutate(s); return s;] *)
Definition copy_elision (s : Stmt) (order : list string)
    (env' : gmap string Function_) : Stmt :=
  let s := CopyElision_mutate {| env := env' |} s in
  s.
End CopyElisionPass.

Arguments env {Function_} _.
Arguments CopyElision_mutate {Stmt Function_} _ _ _.
Arguments copy_elision {Stmt Function_} _ _ _ _.

(** ** Programs over handles *)

(** A call of one of the three constructors. *)
Inductive constructor_call : Type :=
  | call_Buffer_new (t : Type_) (x_size y_size z_size w_size : Z) (data : Z)
      (n : string)
  | call_Buffer_of_sizes (t : Type_) (sizes : list Z) (data : Z) (n : string)
  | call_Buffer_wrap (t : Type_) (b : option buffer_t) (n : string).

Definition construct (rt : Runtime) (k : constructor_call) : St Buffer :=
  match k with
  | call_Buffer_new t x y z w data n => Buffer_new rt t x y z w data n
  | call_Buffer_of_sizes t sizes data n => Buffer_of_sizes rt t sizes data n
  | call_Buffer_wrap t b n => Buffer_wrap rt t b n
  end.

(** What a client may do with a handle once it has it: the mutators, the
    device operations, taking another handle on the same contents, and
    dropping one. *)
Inductive handle_op : Type :=
  | op_set_host_dirty (dirty : bool)
  | op_set_device_dirty (dirty : bool)
  | op_set_min (m0 m1 m2 m3 : Z)
  | op_set_source_module (m : JITCompiledModule)
  | op_copy_to_host
  | op_copy_to_dev
  | op_free_dev_buffer
  | op_copy
  | op_release.

Definition run_op (b : Buffer) (o : handle_op) : St unit :=
  match o with
  | op_set_host_dirty d => Buffer_set_host_dirty b d
  | op_set_device_dirty d => Buffer_set_device_dirty b d
  | op_set_min m0 m1 m2 m3 => Buffer_set_min b m0 m1 m2 m3
  | op_set_source_module m => Buffer_set_source_module b m
  | op_copy_to_host => Buffer_copy_to_host b
  | op_copy_to_dev => Buffer_copy_to_dev b
  | op_free_dev_buffer => Buffer_free_dev_buffer b
  | op_copy => Buffer_copy b ;;; ret tt
  | op_release => Buffer_release b
  end.

Fixpoint run_ops (b : Buffer) (ops : list handle_op) : St unit :=
  match ops with
  | [] => ret tt
  | o :: rest => run_op b o ;;; run_ops b rest
  end.

(** ** Sample values

    A one-byte unsigned type, a 4x3 descriptor, and a world that holds one
    contents object at location 1 with a single handle on it. *)
Definition UInt8 : Type_ := {| code := UInt; bits := 8; width := 1 |}.

Definition sample_buf : buffer_t :=
  {| host := 4096; dev := 0; elem_size := 1;
     host_dirty := false; dev_dirty := false;
     extent := Array4 4 3 0 0; stride := Array4 1 4 12 0;
     min := Array4 0 0 0 0 |}.

Definition sample_contents : BufferContents :=
  {| buf := sample_buf; type := UInt8; allocation := 0; ref_count := 1;
     name := "b0"; source_module := no_module |}.

Definition sample_world : World :=
  {| heap := {[ 1%positive := sample_contents ]}; trace := [] |}.

Definition sample_handle : Buffer := {| contents := Some 1%positive |}.

(** A handle that holds no contents. *)
Definition undefined_handle : Buffer := {| contents := None |}.

Definition sample_runtime : Runtime :=
  {| calloc_result := 65536 + 8;
     new_result := 2%positive;
     unique_name := fun _ => "b1";
     make_entity_name := fun _ _ => "b2" |}.

Definition another_runtime : Runtime :=
  {| calloc_result := 131072;
     new_result := 3%positive;
     unique_name := fun _ => "b3";
     make_entity_name := fun _ _ => "b4" |}.

(** A contents object with a device allocation: handle 7, a bound
    free-device callback that clears the handle, and an owned host block. *)
Definition clear_dev : callback :=
  fun _ d =>
    {| host := host d; dev := 0; elem_size := elem_size d;
       host_dirty := host_dirty d; dev_dirty := dev_dirty d;
       extent := extent d; stride := stride d; min := min d |}.

Definition device_module : JITCompiledModule :=
  {| copy_to_host := None; copy_to_dev := None;
     free_dev_buffer := Some clear_dev |}.

Definition device_buf (handle : Z) : buffer_t :=
  {| host := 65536; dev := handle; elem_size := 1;
     host_dirty := false; dev_dirty := true;
     extent := Array4 4 3 0 0; stride := Array4 1 4 12 0;
     min := Array4 0 0 0 0 |}.

Definition device_contents (handle : Z) : BufferContents :=
  {| buf := device_buf handle; type := UInt8; allocation := 65536 - 8;
     ref_count := 1; name := "b0"; source_module := device_module |}.

Definition device_world (handle : Z) : World :=
  {| heap := {[ 1%positive := device_contents handle ]}; trace := [] |}.

(** ** What a teardown does to the outside

    The events [destroy] appends for contents [c] at [p]. *)
Definition teardown_events (p : loc) (c : BufferContents) : list event :=
  match free_dev_buffer (source_module c) with
  | Some _ => [ev_call cb_free_dev_buffer 0 (buf c)]
  | None => []
  end ++ [ev_free (allocation c); ev_delete p].

(** ** What a freshly constructed owning buffer looks like *)

(** The number of sizes before the first zero. *)
Fixpoint leading_nonzero (sizes : list Z) : Z :=
  match sizes with
  | [] => 0
  | v :: rest => if v =? 0 then 0 else 1 + leading_nonzero rest
  end.

(** A size that is zero stands for an absent dimension and does not enter
    the byte count. *)
Definition present (v : Z) : Z := if v =? 0 then 1 else v.

Definition byte_count (t : Type_) (x y z w : Z) : Z :=
  present x * present y * present z * present w * bytes t.

(** A block of [n] bytes at [p] inside the address space. *)
Definition valid_block (p n : Z) : Prop := 0 < p /\ p + n <= 2 ^ size_t_bits.

(** The next multiple of 32 at or after [h]. *)
Definition align_up (h : Z) : Z :=
  if h mod 32 =? 0 then h else 32 * (h / 32 + 1).

(** The observations of the handle [b] in the world [w1]. *)
Definition fresh_owning_buffer (x y z w : Z) (b : Buffer) (w1 : World) : Prop :=
  Buffer_dimensions b w1 = Ok (leading_nonzero [x; y; z; w], w1) /\
  (Buffer_extent b 0 w1 = Ok (x, w1) /\ Buffer_extent b 1 w1 = Ok (y, w1) /\
   Buffer_extent b 2 w1 = Ok (z, w1) /\ Buffer_extent b 3 w1 = Ok (w, w1)) /\
  (Buffer_stride b 0 w1 = Ok (1, w1) /\ Buffer_stride b 1 w1 = Ok (x, w1) /\
   Buffer_stride b 2 w1 = Ok (x * y, w1) /\
   Buffer_stride b 3 w1 = Ok (x * y * z, w1)) /\
  (forall i, 0 <= i < 4 -> Buffer_min b i w1 = Ok (0, w1)) /\
  (exists h, Buffer_host_ptr b w1 = Ok (h, w1) /\ h <> 0 /\ h mod 32 = 0).

(** Construction in owning mode with no external pointer ([data] null)
    returns a handle with these observations. *)
Definition owning_construction (rt : Runtime) (t : Type_) (x y z w : Z)
    (n : string) (w0 : World) : Prop :=
  exists b w1,
    Buffer_new rt t x y z w 0 n w0 = Ok (b, w1) /\
    fresh_owning_buffer x y z w b w1.

(** A world with nothing in it. *)
Definition empty_world : World := {| heap := ∅; trace := [] |}.

(** ** Contents that own no host memory *)

(** The contents the wrapping constructor builds around a descriptor. *)
Definition wrapped_contents (rt : Runtime) (t : Type_) (d : buffer_t)
    (n : string) : BufferContents :=
  {| buf := d; type := t; allocation := 0; ref_count := 0;
     name := name_or_unique rt (make_buffer_name rt n);
     source_module := no_module |}.

(** Whatever lives at [p] has a null [allocation]. *)
Definition unowned_at (p : loc) (w : World) : Prop :=
  forall c, heap w !! p = Some c -> allocation c = 0.

(** ** The helpers of the copy-elision pass

    [Function], [Expr] and [Call] come from headers that are not among the
    sources; the helpers use a function only through
    [has_update_definition()], [has_extern_definition()] and [values()],
    an expression through [as<Call>()], and a call through the test
    [call_type == Call::Halide]. These are the parameters below. *)

(** [struct CopyPair { string prod; string cons; }]: the two fields carry
    a prefix, their names being taken by the product type and by the list
    constructor. *)
Record CopyPair : Type := { copy_prod : string; copy_cons : string }.

(** What [std::map::at] throws for a key that is not in the map. *)
Inductive exception : Type := std_out_of_range.

Section CopyElisionHelpers.
Variables Function' Expr' Call' : Type.
Variable has_update_definition : Function' -> bool.
Variable has_extern_definition : Function' -> bool.
Variable values : Function' -> list Expr'.
Variable as_Call : Expr' -> option Call'.
Variable call_type_is_Halide : Call' -> bool.

(** The body of [for (const Expr &val : f.values())] run over the values
    still to visit; [prod] is the local the loop could assign. *)
Fixpoint scan_values (vals : list Expr') (prod : string) : string :=
  match vals with
  | [] => prod
  | val :: rest =>
      let prod :=
        match as_Call val with
        | Some call => if call_type_is_Halide call then prod else prod
        | None => prod
        end in
      scan_values rest prod
  end.

Definition get_pointwise_copy_producer (f : Function') : string :=
  if has_update_definition f || has_extern_definition f then ""
  else scan_values (values f) "".

(** [for (const string &f : order)] with [pointwise_copies] as it stands;
    [env.at(f)] throws when [f] is not a key of [env]. *)
Fixpoint collect_pointwise_copies (order : list string)
    (env' : gmap string Function') (pointwise_copies : list CopyPair) :
  exception + list CopyPair :=
  match order with
  | [] => inr pointwise_copies
  | f :: rest =>
      match env' !! f with
      | None => inl std_out_of_range
      | Some fn =>
          let copied_from := get_pointwise_copy_producer fn in
          let pointwise_copies :=
            if negb (bool_decide (copied_from = ""))
            then pointwise_copies ++ [{| copy_prod := copied_from; copy_cons := f |}]
            else pointwise_copies in
          collect_pointwise_copies rest env' pointwise_copies
      end
  end.

Definition get_pointwise_copies (order : list string)
    (env' : gmap string Function') : exception + list CopyPair :=
  collect_pointwise_copies order env' [].
End CopyElisionHelpers.

Arguments scan_values {Expr' Call'} _ _ _ _.
Arguments get_pointwise_copy_producer {Function' Expr' Call'} _ _ _ _ _ _.
Arguments collect_pointwise_copies {Function' Expr' Call'} _ _ _ _ _ _ _ _.
Arguments get_pointwise_copies {Function' Expr' Call'} _ _ _ _ _ _ _.

(** ** Messages and names of the first constructor *)

Definition overflow_msg : string := "Overflow in checked multiply" +:+ nl.

Definition total_size_msg (nm : string) : string :=
  "Total size of buffer " +:+ nm +:+ " exceeds 2^31 - 1" +:+ nl.

Definition out_of_memory_msg (nm : string) (size : Z) : string :=
  "Out of memory allocating buffer " +:+ nm +:+ " of size " +:+
  pretty size +:+ nl.

Definition too_many_sizes_msg : string :=
  "Buffer dimensions greater than 4 are not supported.".

(** The name the contents of a [Buffer] constructed with [n] carry. *)
Definition buffer_name (rt : Runtime) (n : string) : string :=
  name_or_unique rt (make_buffer_name rt n).

(** The product of the sizes that are not zero. *)
Definition element_count (x y z w : Z) : Z :=
  present x * present y * present z * present w.

(** An [int] that is not negative. *)
Definition size_ok (v : Z) : Prop := 0 <= v < 2 ^ 31.

(** A runtime whose [calloc] is out of memory. *)
(** A runtime whose entity names come out empty. *)
Definition nameless_runtime : Runtime :=
  {| calloc_result := 65536;
     new_result := 2%positive;
     unique_name := fun _ => "u7";
     make_entity_name := fun _ _ => "" |}.

Definition exhausted_runtime : Runtime :=
  {| calloc_result := 0;
     new_result := 2%positive;
     unique_name := fun _ => "b1";
     make_entity_name := fun _ _ => "b2" |}.

(** A 16-lane vector of bytes. *)
Definition UInt8x16 : Type_ := {| code := UInt; bits := 8; width := 16 |}.

(** A callback that marks the host copy as fresh. *)
Definition mark_host_clean : callback :=
  fun _ d =>
    {| host := host d; dev := dev d; elem_size := elem_size d;
       host_dirty := host_dirty d; dev_dirty := false;
       extent := extent d; stride := stride d; min := min d |}.

Definition sync_module : JITCompiledModule :=
  {| copy_to_host := Some mark_host_clean;
     copy_to_dev := Some mark_host_clean;
     free_dev_buffer := Some clear_dev |}.

(** Two stages for the helpers of the pass: an expression is [Some b] for
    a call, [b] telling whether its type is [Call::Halide], and [None] for
    anything else; [f] copies [g] pointwise. *)
Record SampleFunction : Type := {
  sample_has_update : bool;
  sample_has_extern : bool;
  sample_values : list (option bool)
}.

Definition sample_env : gmap string SampleFunction :=
  <["f" := {| sample_has_update := false; sample_has_extern := false;
              sample_values := [Some true] |}]>
    (<["g" := {| sample_has_update := true; sample_has_extern := false;
                 sample_values := [None] |}]> ∅).

(** The contents a constructor call builds before it takes a handle on
    them, and the type and the name the call was given. *)
Definition construct_contents (rt : Runtime) (k : constructor_call) :
  St BufferContents :=
  match k with
  | call_Buffer_new t x y z w data n =>
      BufferContents_new rt t x y z w data (make_buffer_name rt n)
  | call_Buffer_of_sizes t sizes data n =>
      BufferContents_new rt t (size_or_zero sizes 0) (size_or_zero sizes 1)
        (size_or_zero sizes 2) (size_or_zero sizes 3) data
        (make_buffer_name rt n)
  | call_Buffer_wrap t b n =>
      BufferContents_wrap rt t b (make_buffer_name rt n)
  end.

Definition constructed_type (k : constructor_call) : Type_ :=
  match k with
  | call_Buffer_new t _ _ _ _ _ _ => t
  | call_Buffer_of_sizes t _ _ _ => t
  | call_Buffer_wrap t _ _ => t
  end.

Definition constructed_name (k : constructor_call) : string :=
  match k with
  | call_Buffer_new _ _ _ _ _ _ n => n
  | call_Buffer_of_sizes _ _ _ n => n
  | call_Buffer_wrap _ _ n => n
  end.

(** * Properties *)

(** ** The monad *)

Lemma bind_Ok {A B} (m : St A) (k : A -> St B) w a w' :
  m w = Ok (a, w') -> bind m k w = k a w'.
Proof. intros H. unfold bind. rewrite H. reflexivity. Qed.

Lemma bind_Fail {A B} (m : St A) (k : A -> St B) w f :
  m w = Fail f -> bind m k w = Fail f.
Proof. intros H. unfold bind. rewrite H. reflexivity. Qed.

Lemma user_assert_true msg w : user_assert true msg w = Ok (tt, w).
Proof. reflexivity. Qed.

Lemma deref_Some p c w : heap w !! p = Some c -> deref p w = Ok (c, w).
Proof. intros H. unfold deref. rewrite H. reflexivity. Qed.

Lemma modify_Some p f c w :
  heap w !! p = Some c ->
  modify p f w = Ok (tt, set_heap (insert p (f c)) w).
Proof.
  intros H. unfold modify. rewrite (bind_Ok _ _ _ _ _ (deref_Some _ _ _ H)).
  reflexivity.
Qed.

Lemma heap_set_heap_insert p c w :
  heap (set_heap (insert p c) w) !! p = Some c.
Proof. cbn. apply lookup_insert_eq. Qed.

(** ** Overflow-checked multiplication *)

(** The quotient test detects overflow exactly. *)
Lemma quotient_test_exact (w a b : Z) :
  0 <= w -> 0 < a -> 0 <= b ->
  (wrap_unsigned w (a * b) / a = b <-> a * b < 2 ^ w).
Proof.
  intros Hw Ha Hb. unfold wrap_unsigned.
  assert (Hp : 0 < 2 ^ w) by (apply Z.pow_pos_nonneg; lia).
  split.
  - intros H.
    pose proof (Z.mod_pos_bound (a * b) (2 ^ w) Hp) as [_ Hlt].
    pose proof (Z.mul_div_le ((a * b) mod 2 ^ w) a Ha) as Hle.
    rewrite H in Hle. lia.
  - intros H. rewrite Z.mod_small by nia.
    rewrite Z.mul_comm. apply Z.div_mul. lia.
Qed.

Lemma checked_multiply_fits (w a b r : Z) :
  0 <= w -> 0 <= a -> 0 <= b -> a * b < 2 ^ w ->
  checked_multiply w a b r = (true, a * b).
Proof.
  intros Hw Ha Hb Hfit. unfold checked_multiply.
  destruct (Z.eqb_spec a 0) as [-> | Hne]; [reflexivity|].
  pose proof (proj2 (quotient_test_exact w a b Hw ltac:(lia) Hb) Hfit) as Hq.
  rewrite Hq, Z.eqb_refl. cbn [negb].
  unfold wrap_unsigned. rewrite Z.mod_small by nia. reflexivity.
Qed.

Lemma checked_multiply_assert_fits (w a b r : Z) :
  0 <= w -> 0 <= a -> 0 <= b -> a * b < 2 ^ w ->
  checked_multiply_assert w a b r = Ok (a * b).
Proof.
  intros Hw Ha Hb Hfit. unfold checked_multiply_assert.
  rewrite (checked_multiply_fits w a b r Hw Ha Hb Hfit). reflexivity.
Qed.

(** C4. For unsigned [a] and [b] of the size type: [checked_multiply a b]
    is ok with result 0 when [a = 0]; otherwise it is ok exactly when the
    product fits the width, the result then being [a * b], and it reports
    overflow exactly when [(a * b mod 2^w) / a <> b]. *)
Theorem checked_multiply_spec (w a b r : Z) :
  0 < w -> 0 <= a < 2 ^ w -> 0 <= b < 2 ^ w ->
  (a = 0 -> checked_multiply w a b r = (true, 0)) /\
  (a <> 0 ->
     (fst (checked_multiply w a b r) = true <-> a * b < 2 ^ w) /\
     (a * b < 2 ^ w -> checked_multiply w a b r = (true, a * b)) /\
     (fst (checked_multiply w a b r) = false <->
        (a * b mod 2 ^ w) / a <> b)).
Proof.
  intros Hw Ha Hb. split.
  - intros ->. reflexivity.
  - intros Hne. unfold checked_multiply.
    destruct (Z.eqb_spec a 0) as [|_]; [contradiction|].
    pose proof (quotient_test_exact w a b ltac:(lia) ltac:(lia) ltac:(lia)) as Hq.
    fold (wrap_unsigned w (a * b)).
    destruct (Z.eqb_spec (wrap_unsigned w (a * b) / a) b) as [He | He];
      cbn [negb fst].
    + repeat split; try tauto; try congruence.
      intros Hfit. unfold wrap_unsigned. rewrite Z.mod_small by nia. reflexivity.
    + repeat split; try tauto; try congruence.
Qed.

Lemma checked_multiply_spec_witness :
  (0 < 64 /\ 0 <= 3 < 2 ^ 64 /\ 0 <= 5 < 2 ^ 64 /\ 3 <> 0 /\ 3 * 5 < 2 ^ 64) /\
  checked_multiply 64 3 5 1 = (true, 15).
Proof.
  assert (H : 0 < 64 /\ 0 <= 3 < 2 ^ 64 /\ 0 <= 5 < 2 ^ 64 /\ 3 <> 0 /\
              3 * 5 < 2 ^ 64) by lia.
  split; [exact H|].
  destruct H as (Hw & Ha & Hb & Hne & Hfit).
  exact (proj1 (proj2 (proj2 (checked_multiply_spec 64 3 5 1 Hw Ha Hb) Hne)) Hfit).
Defined.

(** ** The copy-elision pass *)

(** The pass hands the statement to the inherited [mutate] and uses neither
    the stage order nor, beyond storing it, the environment. What it
    returns is therefore whatever the inherited [mutate] returns. *)
Lemma copy_elision_is_base_mutate {Stmt Function_ : Type}
    (base : Stmt -> Stmt) (s : Stmt) (order : list string)
    (e : gmap string Function_) :
  copy_elision base s order e = base s.
Proof. reflexivity. Qed.

(** ** Reading and writing through a handle *)

Lemma contents_ptr_defined b p w :
  contents b = Some p -> contents_ptr b w = Ok (p, w).
Proof. intros H. unfold contents_ptr. rewrite H. reflexivity. Qed.

Lemma read_defined {A} b (f : BufferContents -> A) p c w :
  contents b = Some p -> heap w !! p = Some c ->
  read b f w = Ok (f c, w).
Proof.
  intros Hb Hp. unfold read.
  rewrite (bind_Ok _ _ _ _ _ (contents_ptr_defined _ _ _ Hb)).
  rewrite (bind_Ok _ _ _ _ _ (deref_Some _ _ _ Hp)). reflexivity.
Qed.

Lemma write_defined b f p c w :
  contents b = Some p -> heap w !! p = Some c ->
  write b f w = Ok (tt, set_heap (insert p (f c)) w).
Proof.
  intros Hb Hp. unfold write.
  rewrite (bind_Ok _ _ _ _ _ (contents_ptr_defined _ _ _ Hb)).
  apply modify_Some, Hp.
Qed.

Lemma defined_Some b p : contents b = Some p -> Buffer_defined b = true.
Proof. intros H. unfold Buffer_defined. rewrite H. reflexivity. Qed.

Lemma defined_None b : contents b = None -> Buffer_defined b = false.
Proof. intros H. unfold Buffer_defined. rewrite H. reflexivity. Qed.

(** An accessor that asserts [defined()] first and then reads. *)
Lemma checked_read_defined {A} b msg (f : BufferContents -> A) p c w :
  contents b = Some p -> heap w !! p = Some c ->
  (user_assert (Buffer_defined b) msg ;;; read b f) w = Ok (f c, w).
Proof.
  intros Hb Hp. rewrite (defined_Some _ _ Hb).
  rewrite (bind_Ok _ _ _ _ _ (user_assert_true _ _)).
  apply (read_defined _ _ _ _ _ Hb Hp).
Qed.

Lemma checked_write_defined b msg f p c w :
  contents b = Some p -> heap w !! p = Some c ->
  (user_assert (Buffer_defined b) msg ;;; write b f) w
  = Ok (tt, set_heap (insert p (f c)) w).
Proof.
  intros Hb Hp. rewrite (defined_Some _ _ Hb).
  rewrite (bind_Ok _ _ _ _ _ (user_assert_true _ _)).
  apply (write_defined _ _ _ _ _ Hb Hp).
Qed.

Lemma checked_undefined {A} b msg (m : St A) w :
  contents b = None ->
  (user_assert (Buffer_defined b) msg ;;; m) w = Fail (user_error msg).
Proof.
  intros Hb. rewrite (defined_None _ Hb). reflexivity.
Qed.

Lemma sample_world_lookup : heap sample_world !! 1%positive = Some sample_contents.
Proof. apply lookup_singleton_eq. Qed.

(** ** The dirty flags *)

Lemma set_device_dirty_defined b dirty p c w :
  contents b = Some p -> heap w !! p = Some c ->
  Buffer_set_device_dirty b dirty w
  = Ok (tt, set_heap (insert p (set_buf (with_host_dirty dirty) c)) w).
Proof. apply checked_write_defined. Qed.

Lemma set_host_dirty_defined b dirty p c w :
  contents b = Some p -> heap w !! p = Some c ->
  Buffer_set_host_dirty b dirty w
  = Ok (tt, set_heap (insert p (set_buf (with_host_dirty dirty) c)) w).
Proof. apply checked_write_defined. Qed.

(** The host flag is written by its own setter: [set_host_dirty(d)] makes
    [host_dirty()] return [d] and leaves [device_dirty()] alone. *)
Lemma set_host_dirty_effect b dirty p c w :
  contents b = Some p -> heap w !! p = Some c ->
  exists w',
    Buffer_set_host_dirty b dirty w = Ok (tt, w') /\
    Buffer_host_dirty b w' = Ok (dirty, w') /\
    Buffer_device_dirty b w' = Ok (dev_dirty (buf c), w').
Proof.
  intros Hb Hp. eexists. split; [apply (set_host_dirty_defined _ _ _ _ _ Hb Hp)|].
  split.
  - unfold Buffer_host_dirty.
    rewrite (checked_read_defined _ _ _ _ _ _ Hb (heap_set_heap_insert _ _ _)).
    reflexivity.
  - unfold Buffer_device_dirty.
    rewrite (checked_read_defined _ _ _ _ _ _ Hb (heap_set_heap_insert _ _ _)).
    reflexivity.
Qed.

(** On every defined handle [set_device_dirty(d)] leaves [device_dirty()]
    as it was and makes [host_dirty()] return [d]. *)
Lemma set_device_dirty_effect b dirty p c w :
  contents b = Some p -> heap w !! p = Some c ->
  exists w',
    Buffer_set_device_dirty b dirty w = Ok (tt, w') /\
    Buffer_device_dirty b w' = Ok (dev_dirty (buf c), w') /\
    Buffer_host_dirty b w' = Ok (dirty, w').
Proof.
  intros Hb Hp. eexists. split; [apply (set_device_dirty_defined _ _ _ _ _ Hb Hp)|].
  split.
  - unfold Buffer_device_dirty.
    rewrite (checked_read_defined _ _ _ _ _ _ Hb (heap_set_heap_insert _ _ _)).
    reflexivity.
  - unfold Buffer_host_dirty.
    rewrite (checked_read_defined _ _ _ _ _ _ Hb (heap_set_heap_insert _ _ _)).
    reflexivity.
Qed.

(** C2. The specification has [set_device_dirty(d)] make [device_dirty()]
    return [d]. On the sample handle, whose two flags are clear,
    [set_device_dirty(true)] succeeds, [device_dirty()] still returns
    [false] afterwards and [host_dirty()] returns [true]: the assignment
    goes to the host flag. *)
Theorem set_device_dirty_writes_host_flag :
  exists w',
    Buffer_set_device_dirty sample_handle true sample_world = Ok (tt, w') /\
    Buffer_device_dirty sample_handle w' = Ok (false, w') /\
    Buffer_host_dirty sample_handle w' = Ok (true, w').
Proof.
  exact (set_device_dirty_effect sample_handle true 1%positive sample_contents
           sample_world eq_refl sample_world_lookup).
Qed.

(** ** Handles without contents *)

(** The operations that assert [defined()] stop with a user error on a
    handle without contents. [stride] asserts without a message. *)
Lemma undefined_handle_checked (b : Buffer) (w : World) :
  contents b = None ->
  Buffer_host_ptr b w = Fail (user_error undefined_msg) /\
  Buffer_raw_buffer b w = Fail (user_error undefined_msg) /\
  Buffer_device_handle b w = Fail (user_error undefined_msg) /\
  Buffer_host_dirty b w = Fail (user_error undefined_msg) /\
  (forall d, Buffer_set_host_dirty b d w = Fail (user_error undefined_msg)) /\
  Buffer_device_dirty b w = Fail (user_error undefined_msg) /\
  (forall d, Buffer_set_device_dirty b d w = Fail (user_error undefined_msg)) /\
  Buffer_dimensions b w = Fail (user_error undefined_msg) /\
  (forall i, Buffer_extent b i w = Fail (user_error undefined_msg)) /\
  (forall i, Buffer_stride b i w = Fail (user_error "")) /\
  (forall i, Buffer_min b i w = Fail (user_error undefined_msg)) /\
  (forall m0 m1 m2 m3,
     Buffer_set_min b m0 m1 m2 m3 w = Fail (user_error undefined_msg)) /\
  Buffer_type b w = Fail (user_error undefined_msg) /\
  (forall m, Buffer_set_source_module b m w = Fail (user_error undefined_msg)) /\
  Buffer_source_module b w = Fail (user_error undefined_msg).
Proof.
  intros Hb.
  assert (Hext : forall i, Buffer_extent b i w = Fail (user_error undefined_msg))
    by (intros i; apply (checked_undefined _ _ _ _ Hb)).
  repeat split; intros; try apply (checked_undefined _ _ _ _ Hb); auto.
  unfold Buffer_dimensions, dimensions_from.
  apply bind_Fail, Hext.
Qed.

(** [defined] and [same_as] look at the pointer only and never fail. *)
Lemma undefined_handle_queries (b : Buffer) :
  contents b = None ->
  Buffer_defined b = false /\
  (forall other, Buffer_same_as b other = negb (Buffer_defined other)).
Proof.
  intros Hb. split; [apply defined_None, Hb|].
  intros [[q|]]; unfold Buffer_same_as, Buffer_defined, IntrusivePtr_same_as;
    rewrite Hb; reflexivity.
Qed.

(** C5. The specification has every operation of an undefined handle,
    [name()], [copy_to_host()], [copy_to_dev()] and [free_dev_buffer()]
    among them, stop with the undefined-buffer error. These four follow
    [contents.ptr] without asserting [defined()] first: on a handle without
    contents they dereference the null pointer, and no user error is
    raised. *)
Theorem undefined_handle_unchecked (w : World) :
  Buffer_name undefined_handle w = Fail null_dereference /\
  Buffer_copy_to_host undefined_handle w = Fail null_dereference /\
  Buffer_copy_to_dev undefined_handle w = Fail null_dereference /\
  Buffer_free_dev_buffer undefined_handle w = Fail null_dereference /\
  Buffer_host_ptr undefined_handle w = Fail (user_error undefined_msg).
Proof.
  repeat split.
Qed.

(** ** Device callbacks that are not bound *)

(** C7. On a defined handle whose provider is absent, or whose callback
    for the operation is null, each of [copy_to_host()], [copy_to_dev()]
    and [free_dev_buffer()] returns normally and leaves the world, hence
    the descriptor and the contents, as it was. *)
Theorem unbound_callbacks_are_noops (b : Buffer) (p : loc)
    (c : BufferContents) (w : World) :
  contents b = Some p -> heap w !! p = Some c ->
  (source_module c = no_module \/ copy_to_host (source_module c) = None ->
   Buffer_copy_to_host b w = Ok (tt, w)) /\
  (source_module c = no_module \/ copy_to_dev (source_module c) = None ->
   Buffer_copy_to_dev b w = Ok (tt, w)) /\
  (source_module c = no_module \/ free_dev_buffer (source_module c) = None ->
   Buffer_free_dev_buffer b w = Ok (tt, w)).
Proof.
  intros Hb Hp. repeat split; intros H.
  - assert (Hnull : copy_to_host (source_module c) = None)
      by (destruct H as [-> | H]; [reflexivity | exact H]).
    unfold Buffer_copy_to_host.
    rewrite (bind_Ok _ _ _ _ _ (read_defined _ _ _ _ _ Hb Hp)).
    rewrite Hnull. reflexivity.
  - assert (Hnull : copy_to_dev (source_module c) = None)
      by (destruct H as [-> | H]; [reflexivity | exact H]).
    unfold Buffer_copy_to_dev.
    rewrite (bind_Ok _ _ _ _ _ (read_defined _ _ _ _ _ Hb Hp)).
    rewrite Hnull. reflexivity.
  - assert (Hnull : free_dev_buffer (source_module c) = None)
      by (destruct H as [-> | H]; [reflexivity | exact H]).
    unfold Buffer_free_dev_buffer.
    rewrite (bind_Ok _ _ _ _ _ (read_defined _ _ _ _ _ Hb Hp)).
    rewrite Hnull. reflexivity.
Qed.

Lemma unbound_callbacks_are_noops_witness :
  Buffer_copy_to_host sample_handle sample_world = Ok (tt, sample_world) /\
  Buffer_copy_to_dev sample_handle sample_world = Ok (tt, sample_world) /\
  Buffer_free_dev_buffer sample_handle sample_world = Ok (tt, sample_world).
Proof.
  destruct (unbound_callbacks_are_noops sample_handle 1%positive
              sample_contents sample_world eq_refl sample_world_lookup)
    as (H1 & H2 & H3).
  split; [apply H1; left; reflexivity|].
  split; [apply H2; left; reflexivity | apply H3; left; reflexivity].
Defined.

(** ** Teardown *)

Lemma invoke_Some which f ctx p c w :
  heap w !! p = Some c ->
  invoke which f ctx p w
  = Ok (tt, set_heap (insert p (set_buf (f ctx) c))
              (log (ev_call which ctx (buf c)) w)).
Proof.
  intros Hp. unfold invoke.
  rewrite (bind_Ok _ _ _ _ _ (deref_Some _ _ _ Hp)).
  unfold bind at 1. cbn [emit].
  rewrite (modify_Some p _ c) by exact Hp.
  reflexivity.
Qed.

Lemma destroy_Some p c w :
  heap w !! p = Some c ->
  destroy p w
  = Ok (tt, {| heap := delete p (heap w);
               trace := trace w ++ teardown_events p c |}).
Proof.
  intros Hp. unfold destroy, teardown_events.
  rewrite (bind_Ok _ _ _ _ _ (deref_Some _ _ _ Hp)).
  destruct (free_dev_buffer (source_module c)) as [f|].
  - rewrite (bind_Ok _ _ _ _ _ (invoke_Some _ f 0 _ _ _ Hp)).
    rewrite (bind_Ok _ _ _ _ _ (deref_Some _ _ _ (heap_set_heap_insert _ _ _))).
    unfold bind, free, emit, delete_contents, log, set_heap. cbn.
    rewrite delete_insert_eq, <- !app_assoc. reflexivity.
  - unfold bind at 1. cbn [ret].
    rewrite (bind_Ok _ _ _ _ _ (deref_Some _ _ _ Hp)).
    unfold bind, free, emit, delete_contents, log, set_heap. cbn.
    rewrite <- !app_assoc. reflexivity.
Qed.

(** Releasing the last handle destroys the contents. *)
Lemma release_last b p c w :
  contents b = Some p -> heap w !! p = Some c -> ref_count c = 1 ->
  Buffer_release b w
  = Ok (tt, {| heap := delete p (heap w);
               trace := trace w ++ teardown_events p c |}).
Proof.
  intros Hb Hp Hrc. unfold Buffer_release, decref. rewrite Hb.
  rewrite (bind_Ok _ _ _ _ _ (modify_Some _ _ _ _ Hp)).
  rewrite (bind_Ok _ _ _ _ _ (deref_Some _ _ _ (heap_set_heap_insert _ _ _))).
  cbn [ref_count set_ref_count]. rewrite Hrc.
  change (1 - 1 =? 0) with true. cbv iota.
  rewrite (destroy_Some _ _ _ (heap_set_heap_insert _ _ _)).
  cbn. rewrite delete_insert_eq. reflexivity.
Qed.

(** Releasing a handle that is not the last one only drops a reference. *)
Lemma release_shared b p c w :
  contents b = Some p -> heap w !! p = Some c -> ref_count c <> 1 ->
  Buffer_release b w
  = Ok (tt, set_heap (insert p (set_ref_count (ref_count c - 1) c)) w).
Proof.
  intros Hb Hp Hrc. unfold Buffer_release, decref. rewrite Hb.
  rewrite (bind_Ok _ _ _ _ _ (modify_Some _ _ _ _ Hp)).
  rewrite (bind_Ok _ _ _ _ _ (deref_Some _ _ _ (heap_set_heap_insert _ _ _))).
  cbn [ref_count set_ref_count].
  destruct (Z.eqb_spec (ref_count c - 1) 0) as [H0|_]; [lia|]. reflexivity.
Qed.

Lemma teardown_events_bound p c f :
  free_dev_buffer (source_module c) = Some f ->
  teardown_events p c
  = [ev_call cb_free_dev_buffer 0 (buf c); ev_free (allocation c); ev_delete p].
Proof. intros H. unfold teardown_events. rewrite H. reflexivity. Qed.

Lemma device_world_lookup handle :
  heap (device_world handle) !! 1%positive = Some (device_contents handle).
Proof. apply lookup_singleton_eq. Qed.

(** C3. When the last handle on a contents object is released, a
    free-device callback is bound and the device handle is nonzero, the
    release succeeds and the events it adds contain exactly one call of
    that callback, with a null context and the descriptor; that call comes
    before every [free], and the owned allocation is handed to [free]. *)
Theorem teardown_device_before_host (b : Buffer) (p : loc)
    (c : BufferContents) (f : callback) (w : World) :
  contents b = Some p -> heap w !! p = Some c -> ref_count c = 1 ->
  free_dev_buffer (source_module c) = Some f -> dev (buf c) <> 0 ->
  exists w' evs,
    Buffer_release b w = Ok (tt, w') /\
    trace w' = trace w ++ evs /\
    calls_of cb_free_dev_buffer evs = [(0, buf c)] /\
    (forall i j ctx d ptr,
       evs !! i = Some (ev_call cb_free_dev_buffer ctx d) ->
       evs !! j = Some (ev_free ptr) -> (i < j)%nat) /\
    (exists j, evs !! j = Some (ev_free (allocation c))).
Proof.
  intros Hb Hp Hrc Hf _.
  eexists. exists (teardown_events p c).
  split; [apply (release_last _ _ _ _ Hb Hp Hrc)|].
  split; [reflexivity|].
  rewrite (teardown_events_bound _ _ _ Hf).
  split; [reflexivity|]. split.
  - intros [|[|[|i]]] [|[|[|j]]] ctx d ptr Hi Hj; cbn in Hi, Hj;
      try discriminate; lia.
  - exists 1%nat. reflexivity.
Qed.

Lemma teardown_device_before_host_witness :
  exists w' evs,
    Buffer_release sample_handle (device_world 7) = Ok (tt, w') /\
    trace w' = trace (device_world 7) ++ evs /\
    calls_of cb_free_dev_buffer evs = [(0, device_buf 7)] /\
    (forall i j ctx d ptr,
       evs !! i = Some (ev_call cb_free_dev_buffer ctx d) ->
       evs !! j = Some (ev_free ptr) -> (i < j)%nat) /\
    (exists j, evs !! j = Some (ev_free (65536 - 8))).
Proof.
  apply (teardown_device_before_host sample_handle 1%positive
           (device_contents 7) clear_dev (device_world 7)).
  - reflexivity.
  - apply device_world_lookup.
  - reflexivity.
  - reflexivity.
  - cbn. lia.
Defined.

(** C10. At the teardown of the last handle a bound free-device callback
    is called whatever the device handle is, zero included: the release
    succeeds and adds the call, then the [free], then the [delete]; the
    value of [dev] plays no part. *)
Theorem teardown_ignores_device_handle (b : Buffer) (p : loc)
    (c : BufferContents) (f : callback) (w : World) :
  contents b = Some p -> heap w !! p = Some c -> ref_count c = 1 ->
  free_dev_buffer (source_module c) = Some f ->
  exists w',
    Buffer_release b w = Ok (tt, w') /\
    trace w' = trace w ++ [ev_call cb_free_dev_buffer 0 (buf c);
                           ev_free (allocation c); ev_delete p] /\
    (dev (buf c) = 0 ->
     calls_of cb_free_dev_buffer (trace w')
     = calls_of cb_free_dev_buffer (trace w) ++ [(0, buf c)]).
Proof.
  intros Hb Hp Hrc Hf.
  eexists. split; [apply (release_last _ _ _ _ Hb Hp Hrc)|].
  cbn [trace]. rewrite (teardown_events_bound _ _ _ Hf).
  split; [reflexivity|].
  intros _. unfold calls_of. rewrite omap_app. reflexivity.
Qed.

Lemma teardown_ignores_device_handle_witness :
  dev (buf (device_contents 0)) = 0 /\
  exists w',
    Buffer_release sample_handle (device_world 0) = Ok (tt, w') /\
    trace w' = [ev_call cb_free_dev_buffer 0 (device_buf 0);
                ev_free (65536 - 8); ev_delete 1%positive] /\
    calls_of cb_free_dev_buffer (trace w') = [(0, device_buf 0)].
Proof.
  split; [reflexivity|].
  destruct (teardown_ignores_device_handle sample_handle 1%positive
              (device_contents 0) clear_dev (device_world 0)
              eq_refl (device_world_lookup 0) eq_refl eq_refl)
    as (w' & Hrel & Htr & Hcalls).
  exists w'. split; [exact Hrel|]. split; [exact Htr|].
  apply Hcalls. reflexivity.
Defined.

(** ** Construction in owning mode *)

Lemma to_size_t_small v : 0 <= v < 2 ^ 64 -> to_size_t v = v.
Proof. intros H. unfold to_size_t, wrap_unsigned, size_t_bits. apply Z.mod_small, H. Qed.

Lemma to_int_small v : - 2 ^ 31 <= v < 2 ^ 31 -> to_int v = v.
Proof.
  intros H. unfold to_int, wrap_signed.
  change (2 ^ (32 - 1)) with (2 ^ 31).
  rewrite Z.mod_small; lia.
Qed.

Lemma present_pos v : 0 <= v -> 1 <= present v /\ v <= present v.
Proof. intros H. unfold present. destruct (Z.eqb_spec v 0); lia. Qed.

Lemma multiply_in_present x size :
  0 <= x < 2 ^ 31 -> 0 <= size -> size * present x < 2 ^ 64 ->
  multiply_in x size = Ok (size * present x).
Proof.
  intros Hx Hs Hfit. unfold multiply_in, present in *.
  destruct (Z.eqb_spec x 0) as [-> | Hne]; cbn [negb].
  - rewrite Z.mul_1_r. reflexivity.
  - rewrite to_size_t_small by lia.
    apply checked_multiply_assert_fits; unfold size_t_bits; lia.
Qed.

Lemma land_31 h : 0 <= h -> Z.land h 31 = h mod 32.
Proof. intros H. apply (Z.land_ones h 5). lia. Qed.

(** The alignment loop stops within 32 steps, at the next multiple of 32. *)
Lemma align_host_total (fuel : nat) : forall h,
  0 <= h -> align_up h < 2 ^ 64 ->
  (h mod 32 = 0 /\ (1 <= fuel)%nat) \/
  (h mod 32 <> 0 /\ 33 - h mod 32 <= Z.of_nat fuel) ->
  align_host fuel h = Ok (align_up h).
Proof.
  induction fuel as [| fuel IH]; intros h Hh Hfit Hfuel.
  - exfalso. pose proof (Z.mod_pos_bound h 32 ltac:(lia)). lia.
  - cbn [align_host]. rewrite land_31 by exact Hh.
    unfold align_up in *.
    destruct (Z.eqb_spec (h mod 32) 0) as [H0 | Hne]; cbn [negb]; [reflexivity|].
    assert (Hstep : to_size_t (h + 1) = h + 1).
    { apply to_size_t_small. Z.div_mod_to_equations. lia. }
    rewrite Hstep.
    assert (Hnext : (if (h + 1) mod 32 =? 0 then h + 1
                     else 32 * ((h + 1) / 32 + 1)) = 32 * (h / 32 + 1)).
    { destruct (Z.eqb_spec ((h + 1) mod 32) 0); Z.div_mod_to_equations; lia. }
    rewrite <- Hnext. apply IH.
    + lia.
    + rewrite Hnext. exact Hfit.
    + destruct (Z.eq_dec ((h + 1) mod 32) 0) as [H1 | H1].
      * left. split; [exact H1|].
        destruct Hfuel as [[? _] | [_ Hf]]; [contradiction|].
        Z.div_mod_to_equations. lia.
      * right. split; [exact H1|].
        destruct Hfuel as [[? _] | [_ Hf]]; [contradiction|].
        Z.div_mod_to_equations. lia.
Qed.

Lemma align_up_spec h :
  0 <= h -> h <= align_up h < h + 32 /\ align_up h mod 32 = 0.
Proof.
  intros Hh. unfold align_up.
  destruct (Z.eqb_spec (h mod 32) 0) as [H0 | Hne].
  - lia.
  - split; [Z.div_mod_to_equations; lia|].
    rewrite Z.mul_comm. apply Z.mod_mul. lia.
Qed.

Lemma align_host_32 h :
  0 <= h -> h + 32 <= 2 ^ 64 -> align_host 32 h = Ok (align_up h).
Proof.
  intros Hh Hfit. apply align_host_total; [exact Hh | |].
  - pose proof (align_up_spec h Hh). lia.
  - pose proof (Z.mod_pos_bound h 32 ltac:(lia)).
    destruct (Z.eq_dec (h mod 32) 0); [left | right]; split; lia.
Qed.

Lemma lift_Ok {A} (o : outcome A) a w : o = Ok a -> lift o w = Ok (a, w).
Proof. intros ->. reflexivity. Qed.

Lemma allocate_host_ok rt nm e size w :
  0 <= e < 2 ^ 31 -> 0 <= size -> size * e < 2 ^ 31 - 1 ->
  valid_block (calloc_result rt) (size * e + 32) ->
  allocate_host rt nm e size w
  = Ok ((calloc_result rt, align_up (calloc_result rt)),
        log (ev_calloc 1 (size * e + 32) (calloc_result rt)) w).
Proof.
  intros He Hs Hlim [Hp Hblock]. unfold size_t_bits in Hblock.
  assert (Hmul : checked_multiply_assert size_t_bits size (to_size_t e) size
                 = Ok (size * e)).
  { rewrite to_size_t_small by lia.
    apply checked_multiply_assert_fits; unfold size_t_bits; lia. }
  assert (Halign : align_host 32 (calloc_result rt)
                   = Ok (align_up (calloc_result rt)))
    by (apply align_host_32; nia).
  cbv [allocate_host bind lift user_assert calloc emit ret].
  rewrite Hmul.
  destruct (Z.ltb_spec (size * e) (2 ^ 31 - 1)) as [_ | Hge]; [|lia].
  rewrite (to_size_t_small (size * e + 32)) by lia.
  destruct (Z.eqb_spec (calloc_result rt) 0) as [H0 | _]; [lia|]. cbn [negb].
  rewrite Halign. reflexivity.
Qed.

Lemma grow_by_factor u v : 0 <= u -> 1 <= v -> u <= u * v.
Proof. nia. Qed.

(** A type of positive bit width takes at least one byte. *)
Lemma bytes_pos t : 0 < bits t -> 1 <= bytes t.
Proof.
  intros H. unfold bytes. rewrite Z.quot_div_nonneg by lia.
  Z.div_mod_to_equations. lia.
Qed.

(** The bounds that follow from a byte count under the limit. *)
Lemma byte_count_bounds t x y z w :
  0 <= x -> 0 <= y -> 0 <= z -> 0 <= w -> 1 <= bytes t ->
  byte_count t x y z w < 2 ^ 31 - 1 ->
  let sx := 1 * present x in
  let sy := sx * present y in
  let sz := sy * present z in
  let sw := sz * present w in
  1 <= sx /\ sx <= sy /\ sy <= sz /\ sz <= sw /\ sw <= sw * bytes t /\
  sw * bytes t = byte_count t x y z w /\
  0 <= x * y <= sy /\ 0 <= x * y * z <= sz /\ bytes t <= sw * bytes t.
Proof.
  intros Hx Hy Hz Hw Hb Hlim. cbv zeta.
  destruct (present_pos x Hx) as [Hx1 Hx2].
  destruct (present_pos y Hy) as [Hy1 Hy2].
  destruct (present_pos z Hz) as [Hz1 Hz2].
  destruct (present_pos w Hw) as [Hw1 Hw2].
  unfold byte_count in *.
  set (a := present x) in *. set (b := present y) in *.
  set (c := present z) in *. set (d := present w) in *.
  rewrite Z.mul_1_l.
  assert (H1 : a <= a * b) by (apply grow_by_factor; lia).
  assert (H2 : a * b <= a * b * c) by (apply grow_by_factor; lia).
  assert (H3 : a * b * c <= a * b * c * d) by (apply grow_by_factor; lia).
  assert (H4 : a * b * c * d <= a * b * c * d * bytes t)
    by (apply grow_by_factor; lia).
  assert (Hxy : 0 <= x * y <= a * b) by nia.
  assert (Hxyz : 0 <= x * y * z <= a * b * c) by nia.
  assert (Hbt : bytes t <= a * b * c * d * bytes t) by nia.
  repeat split; lia.
Qed.

Lemma BufferContents_new_ok rt t x y z w n w0 :
  width t = 1 -> 1 <= bytes t ->
  0 <= x -> 0 <= y -> 0 <= z -> 0 <= w ->
  byte_count t x y z w < 2 ^ 31 - 1 ->
  valid_block (calloc_result rt) (byte_count t x y z w + 32) ->
  BufferContents_new rt t x y z w 0 n w0
  = Ok ({| buf := {| host := align_up (calloc_result rt);
                     dev := 0;
                     elem_size := bytes t;
                     host_dirty := false;
                     dev_dirty := false;
                     extent := Array4 x y z w;
                     stride := Array4 1 x (x * y) (x * y * z);
                     min := Array4 0 0 0 0 |};
           type := t;
           allocation := calloc_result rt;
           ref_count := 0;
           name := name_or_unique rt n;
           source_module := no_module |},
        log (ev_calloc 1 (byte_count t x y z w + 32) (calloc_result rt)) w0).
Proof.
  intros Hwidth Hb Hx Hy Hz Hw Hlim Hblock.
  pose proof (byte_count_bounds t x y z w Hx Hy Hz Hw Hb Hlim) as HB.
  cbv zeta in HB.
  destruct HB as (B1 & B2 & B3 & B4 & B5 & B6 & Bxy & Bxyz & Bb).
  destruct (present_pos x Hx) as [_ Hx2].
  destruct (present_pos y Hy) as [_ Hy2].
  destruct (present_pos z Hz) as [_ Hz2].
  destruct (present_pos w Hw) as [_ Hw2].
  assert (M1 : multiply_in x 1 = Ok (1 * present x))
    by (apply multiply_in_present; nia).
  assert (M2 : multiply_in y (1 * present x) = Ok (1 * present x * present y))
    by (apply multiply_in_present; nia).
  assert (M3 : multiply_in z (1 * present x * present y)
               = Ok (1 * present x * present y * present z))
    by (apply multiply_in_present; nia).
  assert (M4 : multiply_in w (1 * present x * present y * present z)
               = Ok (1 * present x * present y * present z * present w))
    by (apply multiply_in_present; nia).
  unfold BufferContents_new. rewrite Hwidth. cbv zeta.
  rewrite (bind_Ok _ _ _ _ _ (user_assert_true _ _)).
  rewrite (bind_Ok _ _ _ _ _ (lift_Ok _ _ _ M1)).
  rewrite (bind_Ok _ _ _ _ _ (lift_Ok _ _ _ M2)).
  rewrite (bind_Ok _ _ _ _ _ (lift_Ok _ _ _ M3)).
  rewrite (bind_Ok _ _ _ _ _ (lift_Ok _ _ _ M4)).
  change (0 =? 0) with true. cbv iota.
  assert (HA : allocate_host rt (name_or_unique rt n) (bytes t)
                 (1 * present x * present y * present z * present w) w0
               = Ok ((calloc_result rt, align_up (calloc_result rt)),
                     log (ev_calloc 1 (byte_count t x y z w + 32)
                            (calloc_result rt)) w0)).
  { rewrite <- B6. apply allocate_host_ok; [lia | lia | lia |].
    rewrite B6. exact Hblock. }
  rewrite (bind_Ok _ _ _ _ _ HA).
  cbn [fst snd ret].
  rewrite (to_int_small (x * y)) by lia.
  rewrite (to_int_small (x * y * z)) by lia.
  reflexivity.
Qed.

(** A new handle: the contents sit at the location [operator new] chose,
    with one reference. *)
Lemma handle_of_contents rt c w :
  (p <- new rt c ;; ptr <- IntrusivePtr_new p ;; ret {| contents := ptr |}) w
  = Ok ({| contents := Some (new_result rt) |},
        set_heap (insert (new_result rt) (set_ref_count (ref_count c + 1) c))
          (set_heap (insert (new_result rt) c) w)).
Proof.
  cbv [bind new IntrusivePtr_new incref modify deref ret].
  rewrite heap_set_heap_insert. reflexivity.
Qed.

Lemma set_heap_insert_twice p c c' w :
  heap (set_heap (insert p c') (set_heap (insert p c) w)) !! p = Some c'.
Proof. apply heap_set_heap_insert. Qed.

Lemma extent_defined b p c w i :
  contents b = Some p -> heap w !! p = Some c -> 0 <= i < 4 ->
  Buffer_extent b i w = Ok (get4 (extent (buf c)) i, w).
Proof.
  intros Hb Hp Hi. unfold Buffer_extent.
  rewrite (defined_Some _ _ Hb).
  rewrite (bind_Ok _ _ _ _ _ (user_assert_true _ _)).
  replace (in_range i) with true by (unfold in_range; lia).
  rewrite (bind_Ok _ _ _ _ _ (user_assert_true _ _)).
  apply (read_defined b (fun c => get4 (extent (buf c)) i) p c w Hb Hp).
Qed.

Lemma stride_defined b p c w i :
  contents b = Some p -> heap w !! p = Some c -> 0 <= i < 4 ->
  Buffer_stride b i w = Ok (get4 (stride (buf c)) i, w).
Proof.
  intros Hb Hp Hi. unfold Buffer_stride.
  rewrite (defined_Some _ _ Hb).
  rewrite (bind_Ok _ _ _ _ _ (user_assert_true _ _)).
  replace (in_range i) with true by (unfold in_range; lia).
  rewrite (bind_Ok _ _ _ _ _ (user_assert_true _ _)).
  apply (read_defined b (fun c => get4 (stride (buf c)) i) p c w Hb Hp).
Qed.

Lemma min_defined b p c w i :
  contents b = Some p -> heap w !! p = Some c -> 0 <= i < 4 ->
  Buffer_min b i w = Ok (get4 (min (buf c)) i, w).
Proof.
  intros Hb Hp Hi. unfold Buffer_min.
  rewrite (defined_Some _ _ Hb).
  rewrite (bind_Ok _ _ _ _ _ (user_assert_true _ _)).
  replace (in_range i) with true by (unfold in_range; lia).
  rewrite (bind_Ok _ _ _ _ _ (user_assert_true _ _)).
  apply (read_defined b (fun c => get4 (min (buf c)) i) p c w Hb Hp).
Qed.

(** [dimensions()] is the index of the first zero extent, 4 if none. *)
Lemma dimensions_defined b p c w e0 e1 e2 e3 :
  contents b = Some p -> heap w !! p = Some c ->
  extent (buf c) = Array4 e0 e1 e2 e3 ->
  Buffer_dimensions b w = Ok (leading_nonzero [e0; e1; e2; e3], w).
Proof.
  intros Hb Hp He. unfold Buffer_dimensions, dimensions_from.
  cbn [leading_nonzero].
  rewrite (bind_Ok _ _ _ _ _ (extent_defined _ _ _ _ 0 Hb Hp ltac:(lia))).
  rewrite He. change (get4 (Array4 e0 e1 e2 e3) 0) with e0.
  destruct (e0 =? 0); [reflexivity|].
  rewrite (bind_Ok _ _ _ _ _ (extent_defined _ _ _ _ 1 Hb Hp ltac:(lia))).
  rewrite He. change (get4 (Array4 e0 e1 e2 e3) 1) with e1.
  destruct (e1 =? 0); [reflexivity|].
  rewrite (bind_Ok _ _ _ _ _ (extent_defined _ _ _ _ 2 Hb Hp ltac:(lia))).
  rewrite He. change (get4 (Array4 e0 e1 e2 e3) 2) with e2.
  destruct (e2 =? 0); [reflexivity|].
  rewrite (bind_Ok _ _ _ _ _ (extent_defined _ _ _ _ 3 Hb Hp ltac:(lia))).
  rewrite He. change (get4 (Array4 e0 e1 e2 e3) 3) with e3.
  destruct (e3 =? 0); reflexivity.
Qed.

Lemma host_ptr_defined b p c w :
  contents b = Some p -> heap w !! p = Some c ->
  Buffer_host_ptr b w = Ok (host (buf c), w).
Proof.
  intros Hb Hp.
  apply (checked_read_defined b _ (fun c => host (buf c)) p c w Hb Hp).
Qed.

Lemma four_cases i : 0 <= i < 4 -> i = 0 \/ i = 1 \/ i = 2 \/ i = 3.
Proof. lia. Qed.

Lemma observe_fresh b p c w1 x y z w :
  contents b = Some p -> heap w1 !! p = Some c ->
  extent (buf c) = Array4 x y z w ->
  stride (buf c) = Array4 1 x (x * y) (x * y * z) ->
  min (buf c) = Array4 0 0 0 0 ->
  host (buf c) <> 0 -> host (buf c) mod 32 = 0 ->
  fresh_owning_buffer x y z w b w1.
Proof.
  intros Hb Hp He Hs Hm Hh Ha. unfold fresh_owning_buffer.
  split; [apply (dimensions_defined _ _ _ _ _ _ _ _ Hb Hp He)|].
  split.
  { repeat split;
      rewrite (extent_defined _ _ _ _ _ Hb Hp) by lia; rewrite He; reflexivity. }
  split.
  { repeat split;
      rewrite (stride_defined _ _ _ _ _ Hb Hp) by lia; rewrite Hs; reflexivity. }
  split.
  { intros i Hi. rewrite (min_defined _ _ _ _ _ Hb Hp) by lia. rewrite Hm.
    destruct (four_cases i Hi) as [-> | [-> | [-> | ->]]]; reflexivity. }
  exists (host (buf c)). split; [apply (host_ptr_defined _ _ _ _ Hb Hp)|].
  split; assumption.
Qed.

(** C1. For a unit-lane type whose elements take at least one byte and
    sizes, each at least 0, such that the product of the sizes that are not
    zero times [t.bytes()] is below 2^31 - 1, and [calloc] handing out a
    block: construction in owning mode
    with no external pointer returns a handle with [dimensions()] the count
    of leading nonzero sizes, [extent(i)] the i-th size, strides
    (1, x, x*y, x*y*z), every [min(i)] zero, and a [host_ptr()] that is
    non-null and a multiple of 32. *)
Theorem owning_buffer_layout (rt : Runtime) (t : Type_) (x y z w : Z)
    (n : string) (w0 : World) :
  width t = 1 -> 1 <= bytes t ->
  0 <= x -> 0 <= y -> 0 <= z -> 0 <= w ->
  byte_count t x y z w < 2 ^ 31 - 1 ->
  valid_block (calloc_result rt) (byte_count t x y z w + 32) ->
  owning_construction rt t x y z w n w0.
Proof.
  intros Hwidth Hbytes Hx Hy Hz Hw Hlim Hblock.
  unfold owning_construction, Buffer_new.
  eexists. eexists. split.
  - rewrite (bind_Ok _ _ _ _ _
               (BufferContents_new_ok rt t x y z w _ w0 Hwidth Hbytes
                  Hx Hy Hz Hw Hlim Hblock)).
    apply handle_of_contents.
  - destruct Hblock as [Hp Hfit]. unfold size_t_bits in Hfit.
    pose proof (align_up_spec (calloc_result rt) ltac:(lia)) as [Hrange Hmod].
    eapply observe_fresh.
    + reflexivity.
    + apply set_heap_insert_twice.
    + reflexivity.
    + reflexivity.
    + reflexivity.
    + cbn [buf set_ref_count host]. lia.
    + cbn [buf set_ref_count host]. exact Hmod.
Qed.

Lemma owning_buffer_layout_witness :
  (width UInt8 = 1 /\ 1 <= bytes UInt8 /\
   byte_count UInt8 4 3 0 0 < 2 ^ 31 - 1 /\
   valid_block (calloc_result sample_runtime) (byte_count UInt8 4 3 0 0 + 32)) /\
  owning_construction sample_runtime UInt8 4 3 0 0 "" empty_world.
Proof.
  assert (Hlim : byte_count UInt8 4 3 0 0 < 2 ^ 31 - 1) by (vm_compute; reflexivity).
  assert (Hblock : valid_block (calloc_result sample_runtime)
                     (byte_count UInt8 4 3 0 0 + 32))
    by (split; vm_compute; [reflexivity | discriminate]).
  split.
  - split; [reflexivity|]. split; [apply bytes_pos; reflexivity|].
    split; [exact Hlim | exact Hblock].
  - apply (owning_buffer_layout sample_runtime UInt8 4 3 0 0 "" empty_world);
      [reflexivity | apply bytes_pos; reflexivity | lia | lia | lia | lia
      | exact Hlim | exact Hblock].
Defined.

(** ** Identity of the shared contents *)

Lemma bind_inv {A B} (m : St A) (k : A -> St B) w r :
  bind m k w = Ok r -> exists a w1, m w = Ok (a, w1) /\ k a w1 = Ok r.
Proof.
  unfold bind. destruct (m w) as [[a w1] | f]; [eauto | discriminate].
Qed.

(** Every constructor returns a handle on the location [operator new]
    chose, and the contents are there afterwards. *)
Lemma construct_handle rt k w b w' :
  construct rt k w = Ok (b, w') ->
  contents b = Some (new_result rt) /\ is_Some (heap w' !! new_result rt).
Proof.
  destruct k as [t x y z s data n | t sizes data n | t d n]; cbn [construct];
    intros H.
  - unfold Buffer_new in H. apply bind_inv in H as (c & w1 & _ & H).
    rewrite handle_of_contents in H. inversion H; subst; clear H.
    split; [reflexivity|]. rewrite heap_set_heap_insert. eauto.
  - unfold Buffer_of_sizes in H. apply bind_inv in H as (c & w1 & _ & H).
    cbv [bind new IntrusivePtr_new incref modify deref ret user_assert] in H.
    rewrite heap_set_heap_insert in H.
    destruct (bool_decide (length sizes <= 4)%nat); [|discriminate].
    inversion H; subst; clear H.
    split; [reflexivity|]. rewrite heap_set_heap_insert. eauto.
  - unfold Buffer_wrap in H. apply bind_inv in H as (c & w1 & _ & H).
    rewrite handle_of_contents in H. inversion H; subst; clear H.
    split; [reflexivity|]. rewrite heap_set_heap_insert. eauto.
Qed.

(** A new handle differs from every handle on live contents, provided
    [operator new] hands out storage that is not in use. *)
Lemma construct_not_same_as rt k w b' w' b p :
  contents b = Some p -> is_Some (heap w !! p) ->
  heap w !! new_result rt = None ->
  construct rt k w = Ok (b', w') ->
  Buffer_same_as b b' = false /\ Buffer_same_as b' b = false.
Proof.
  intros Hb [c Hp] Hfresh Hk.
  destruct (construct_handle _ _ _ _ _ Hk) as [Hb' _].
  assert (Hne : p <> new_result rt) by congruence.
  unfold Buffer_same_as, IntrusivePtr_same_as. rewrite Hb, Hb'.
  split; apply bool_decide_eq_false; congruence.
Qed.

Lemma copy_inv b w b' w' :
  Buffer_copy b w = Ok (b', w') -> contents b' = contents b.
Proof.
  unfold Buffer_copy. intros H. apply bind_inv in H as (u & w1 & _ & H).
  inversion H; subst. reflexivity.
Qed.

Lemma same_as_true b b' :
  Buffer_same_as b b' = true <-> contents b = contents b'.
Proof. unfold Buffer_same_as, IntrusivePtr_same_as. apply bool_decide_eq_true. Qed.

(** [set_min] on a defined handle replaces the four origins and nothing
    else. *)
Lemma set_min_defined b p c w m0 m1 m2 m3 :
  contents b = Some p -> heap w !! p = Some c ->
  exists w',
    Buffer_set_min b m0 m1 m2 m3 w = Ok (tt, w') /\
    heap w' !! p
    = Some (set_buf (fun d =>
              {| host := host d; dev := dev d; elem_size := elem_size d;
                 host_dirty := host_dirty d; dev_dirty := dev_dirty d;
                 extent := extent d; stride := stride d;
                 min := Array4 m0 m1 m2 m3 |}) c) /\
    trace w' = trace w.
Proof.
  intros Hb Hp. eexists. split.
  - unfold Buffer_set_min. rewrite (defined_Some _ _ Hb).
    rewrite (bind_Ok _ _ _ _ _ (user_assert_true _ _)).
    rewrite (bind_Ok _ _ _ _ _ (write_defined _ _ _ _ _ Hb Hp)).
    rewrite (bind_Ok _ _ _ _ _
               (write_defined _ _ _ _ _ Hb (heap_set_heap_insert _ _ _))).
    rewrite (bind_Ok _ _ _ _ _
               (write_defined _ _ _ _ _ Hb (heap_set_heap_insert _ _ _))).
    apply (write_defined _ _ _ _ _ Hb (heap_set_heap_insert _ _ _)).
  - split; [|reflexivity]. rewrite heap_set_heap_insert. reflexivity.
Qed.

Lemma set_min_inv b m0 m1 m2 m3 w w' :
  Buffer_set_min b m0 m1 m2 m3 w = Ok (tt, w') ->
  exists p c, contents b = Some p /\ heap w !! p = Some c.
Proof.
  intros H. destruct (contents b) as [p|] eqn:Hb.
  - destruct (heap w !! p) as [c|] eqn:Hp; [eauto|].
    exfalso. unfold Buffer_set_min in H. rewrite (defined_Some _ _ Hb) in H.
    rewrite (bind_Ok _ _ _ _ _ (user_assert_true _ _)) in H.
    cbv [bind write contents_ptr ret modify deref] in H.
    rewrite Hb, Hp in H. discriminate.
  - exfalso. unfold Buffer_set_min in H.
    rewrite (checked_undefined _ _ _ _ Hb) in H. discriminate.
Qed.

(** After [set_min(m0, m1, m2, m3)] through [b], [min(i)] through any
    handle [h] on the same contents returns [mi]. *)
Lemma set_min_visible b h m0 m1 m2 m3 w w' :
  contents h = contents b ->
  Buffer_set_min b m0 m1 m2 m3 w = Ok (tt, w') ->
  Buffer_min h 0 w' = Ok (m0, w') /\ Buffer_min h 1 w' = Ok (m1, w') /\
  Buffer_min h 2 w' = Ok (m2, w') /\ Buffer_min h 3 w' = Ok (m3, w').
Proof.
  intros Hh Hset.
  destruct (set_min_inv _ _ _ _ _ _ _ Hset) as (p & c & Hb & Hp).
  destruct (set_min_defined b p c w m0 m1 m2 m3 Hb Hp) as (w2 & Hset' & Hp' & _).
  rewrite Hset in Hset'. inversion Hset'; subst w2; clear Hset'.
  rewrite Hb in Hh.
  repeat split; rewrite (min_defined _ _ _ _ _ Hh Hp') by lia; reflexivity.
Qed.

(** C6. [same_as] is identity of the shared contents: a newly constructed
    buffer is never [same_as] a buffer constructed before it; a handle and
    a copy of it are [same_as] each other; and what [set_min] writes through
    one handle, [min] reads through every handle that is [same_as] it, a
    copy in particular. *)
Theorem same_as_is_identity :
  (forall rt1 k1 rt2 k2 w0 b1 w1 b2 w2,
     construct rt1 k1 w0 = Ok (b1, w1) ->
     heap w1 !! new_result rt2 = None ->
     construct rt2 k2 w1 = Ok (b2, w2) ->
     Buffer_same_as b1 b2 = false /\ Buffer_same_as b2 b1 = false) /\
  (forall b w b' w',
     Buffer_copy b w = Ok (b', w') ->
     Buffer_same_as b b' = true /\ Buffer_same_as b' b = true) /\
  (forall b h m0 m1 m2 m3 w w',
     Buffer_same_as b h = true ->
     Buffer_set_min b m0 m1 m2 m3 w = Ok (tt, w') ->
     Buffer_min h 0 w' = Ok (m0, w') /\ Buffer_min h 1 w' = Ok (m1, w') /\
     Buffer_min h 2 w' = Ok (m2, w') /\ Buffer_min h 3 w' = Ok (m3, w')) /\
  (forall b w b' w1 m0 m1 m2 m3 w2,
     Buffer_copy b w = Ok (b', w1) ->
     Buffer_set_min b' m0 m1 m2 m3 w1 = Ok (tt, w2) ->
     Buffer_min b 0 w2 = Ok (m0, w2) /\ Buffer_min b 1 w2 = Ok (m1, w2) /\
     Buffer_min b 2 w2 = Ok (m2, w2) /\ Buffer_min b 3 w2 = Ok (m3, w2)).
Proof.
  split; [|split; [|split]].
  - intros rt1 k1 rt2 k2 w0 b1 w1 b2 w2 H1 Hfresh H2.
    destruct (construct_handle _ _ _ _ _ H1) as [Hb1 Hlive].
    apply (construct_not_same_as rt2 k2 w1 b2 w2 b1 _ Hb1 Hlive Hfresh H2).
  - intros b w b' w' Hcopy. apply copy_inv in Hcopy.
    split; apply same_as_true; congruence.
  - intros b h m0 m1 m2 m3 w w' Hsame Hset.
    apply same_as_true in Hsame.
    apply (set_min_visible b h m0 m1 m2 m3 w w'); [congruence | exact Hset].
  - intros b w b' w1 m0 m1 m2 m3 w2 Hcopy Hset. apply copy_inv in Hcopy.
    apply (set_min_visible b' b m0 m1 m2 m3 w1 w2); [congruence | exact Hset].
Qed.

(** ** Wrapping an existing descriptor *)

Lemma Buffer_wrap_ok rt t d n w :
  width t = 1 ->
  Buffer_wrap rt t (Some d) n w
  = Ok ({| contents := Some (new_result rt) |},
        set_heap (insert (new_result rt)
                    (set_ref_count 1 (wrapped_contents rt t d n)))
          (set_heap (insert (new_result rt) (wrapped_contents rt t d n)) w)).
Proof.
  intros Hwidth. unfold Buffer_wrap.
  rewrite (bind_Ok _ _ w (wrapped_contents rt t d n) w).
  - apply handle_of_contents.
  - cbv [BufferContents_wrap bind ret user_assert]. rewrite Hwidth. reflexivity.
Qed.

Lemma callocs_app tr1 tr2 : callocs (tr1 ++ tr2) = callocs tr1 ++ callocs tr2.
Proof. apply omap_app. Qed.

Lemma freed_app tr1 tr2 : freed (tr1 ++ tr2) = freed tr1 ++ freed tr2.
Proof. apply omap_app. Qed.

Lemma teardown_of_unowned p c :
  allocation c = 0 ->
  freed (teardown_events p c) = [] /\ callocs (teardown_events p c) = [].
Proof.
  intros H. unfold teardown_events.
  destruct (free_dev_buffer (source_module c)); cbn; rewrite H; split; reflexivity.
Qed.

Lemma unowned_at_update p f c w :
  heap w !! p = Some c -> unowned_at p w ->
  allocation (f c) = allocation c ->
  unowned_at p (set_heap (insert p (f c)) w).
Proof.
  intros Hp Hun Hf c' Hc'. rewrite heap_set_heap_insert in Hc'.
  inversion Hc'; subst. rewrite Hf. apply (Hun _ Hp).
Qed.

(** A mutator that asserts [defined()] and then writes: if it returns, the
    contents were there and the write is all that happened. *)
Lemma checked_write_inv b msg f p w w' :
  contents b = Some p ->
  (user_assert (Buffer_defined b) msg ;;; write b f) w = Ok (tt, w') ->
  exists c, heap w !! p = Some c /\ w' = set_heap (insert p (f c)) w.
Proof.
  intros Hb H. destruct (heap w !! p) as [c|] eqn:Hp.
  - rewrite (checked_write_defined _ _ _ _ _ _ Hb Hp) in H.
    inversion H. eauto.
  - exfalso. rewrite (defined_Some _ _ Hb) in H.
    cbv [bind user_assert write contents_ptr ret modify deref] in H.
    rewrite Hb, Hp in H. discriminate.
Qed.

(** The three device operations share one shape: read a callback, call it
    on the descriptor if it is bound. *)
Lemma device_op_inv b which (sel : BufferContents -> option callback) p w w' :
  contents b = Some p ->
  (f <- read b sel ;;
   match f with
   | Some f => q <- Buffer_raw_buffer b ;; invoke which f 0 q
   | None => ret tt
   end) w = Ok (tt, w') ->
  exists c, heap w !! p = Some c /\
    (w' = w \/
     exists g, w' = set_heap (insert p (set_buf (g 0) c))
                      (log (ev_call which 0 (buf c)) w)).
Proof.
  intros Hb H. destruct (heap w !! p) as [c|] eqn:Hp.
  - exists c. split; [reflexivity|].
    rewrite (bind_Ok _ _ _ _ _ (read_defined _ sel _ _ _ Hb Hp)) in H.
    destruct (sel c) as [g|].
    + right. exists g.
      unfold Buffer_raw_buffer in H. rewrite (defined_Some _ _ Hb) in H.
      rewrite (bind_Ok _ _ w p w) in H.
      2:{ rewrite (bind_Ok _ _ _ _ _ (user_assert_true _ _)).
          apply (contents_ptr_defined _ _ _ Hb). }
      rewrite (invoke_Some _ _ _ _ _ _ Hp) in H. inversion H. reflexivity.
    + left. inversion H. reflexivity.
  - exfalso. cbv [bind read contents_ptr ret deref] in H.
    rewrite Hb, Hp in H. discriminate.
Qed.

Lemma release_inv b p w w' :
  contents b = Some p ->
  Buffer_release b w = Ok (tt, w') ->
  exists c, heap w !! p = Some c /\
    (w' = {| heap := delete p (heap w);
             trace := trace w ++ teardown_events p c |} \/
     w' = set_heap (insert p (set_ref_count (ref_count c - 1) c)) w).
Proof.
  intros Hb H. destruct (heap w !! p) as [c|] eqn:Hp.
  - exists c. split; [reflexivity|].
    destruct (Z.eq_dec (ref_count c) 1) as [H1 | H1].
    + left. rewrite (release_last _ _ _ _ Hb Hp H1) in H. inversion H. reflexivity.
    + right. rewrite (release_shared _ _ _ _ Hb Hp H1) in H. inversion H. reflexivity.
  - exfalso. unfold Buffer_release, decref in H. rewrite Hb in H.
    cbv [bind modify deref] in H. rewrite Hp in H. discriminate.
Qed.

Lemma incref_inv p w u w' :
  incref (Some p) w = Ok (u, w') ->
  exists c, heap w !! p = Some c /\
    w' = set_heap (insert p (set_ref_count (ref_count c + 1) c)) w.
Proof.
  intros H. cbn [incref] in H. destruct (heap w !! p) as [c|] eqn:Hp.
  - rewrite (modify_Some _ _ _ _ Hp) in H. inversion H. eauto.
  - exfalso. cbv [bind modify deref] in H. rewrite Hp in H. discriminate.
Qed.

(** The case of a device operation: either nothing happened, or the
    callback ran on the descriptor and one [ev_call] was added. *)
Ltac device_case Hb Hun H :=
  let c := fresh "c" in
  let Hp := fresh "Hp" in
  let g := fresh "g" in
  apply (device_op_inv _ _ _ _ _ _ Hb) in H as (c & Hp & [-> | [g ->]]);
  [ repeat split; [exact Hun]
  | split;
    [ let c' := fresh "c'" in
      let Hc' := fresh "Hc'" in
      intros c' Hc'; cbn in Hc'; rewrite lookup_insert_eq in Hc';
      inversion Hc'; subst; cbn; apply (Hun _ Hp)
    | cbn [trace set_heap log]; rewrite callocs_app, freed_app; cbn;
      rewrite !app_nil_r; split; reflexivity ] ].

(** No operation on a handle gives its contents an owned allocation, calls
    [calloc], or frees a block when the contents own none. *)
Lemma run_op_preserves b p o w w' :
  contents b = Some p -> unowned_at p w ->
  run_op b o w = Ok (tt, w') ->
  unowned_at p w' /\
  callocs (trace w') = callocs (trace w) /\
  freed (trace w') = freed (trace w).
Proof.
  intros Hb Hun H.
  destruct o as [d | d | m0 m1 m2 m3 | m | | | | | ]; cbn [run_op] in H.
  - apply (checked_write_inv _ _ _ _ _ _ Hb) in H as (c & Hp & ->).
    split; [apply (unowned_at_update _ _ _ _ Hp Hun); reflexivity|].
    split; reflexivity.
  - apply (checked_write_inv _ _ _ _ _ _ Hb) in H as (c & Hp & ->).
    split; [apply (unowned_at_update _ _ _ _ Hp Hun); reflexivity|].
    split; reflexivity.
  - destruct (set_min_inv _ _ _ _ _ _ _ H) as (q & c & Hq & Hp).
    assert (q = p) by congruence. subst q.
    destruct (set_min_defined b p c w m0 m1 m2 m3 Hb Hp) as (w2 & H2 & Hp2 & Htr).
    rewrite H in H2. inversion H2; subst w2; clear H2.
    split.
    + intros c' Hc'. rewrite Hp2 in Hc'. inversion Hc'; subst.
      cbn. apply (Hun _ Hp).
    + rewrite Htr. split; reflexivity.
  - apply (checked_write_inv _ _ _ _ _ _ Hb) in H as (c & Hp & ->).
    split; [apply (unowned_at_update _ _ _ _ Hp Hun); reflexivity|].
    split; reflexivity.
  - device_case Hb Hun H.
  - device_case Hb Hun H.
  - device_case Hb Hun H.
  - apply bind_inv in H as (b' & w1 & Hcopy & Hret).
    inversion Hret; subst; clear Hret.
    unfold Buffer_copy in Hcopy. rewrite Hb in Hcopy.
    apply bind_inv in Hcopy as (u & w2 & Hinc & Hret).
    inversion Hret; subst; clear Hret.
    apply incref_inv in Hinc as (c & Hp & ->).
    split; [apply (unowned_at_update _ _ _ _ Hp Hun); reflexivity|].
    split; reflexivity.
  - apply (release_inv _ _ _ _ Hb) in H as (c & Hp & [-> | ->]).
    + destruct (teardown_of_unowned p c (Hun _ Hp)) as [Hfreed Hcallocs].
      split.
      * intros c' Hc'. cbn in Hc'. rewrite lookup_delete_eq in Hc'. discriminate.
      * cbn [trace]. rewrite callocs_app, freed_app, Hfreed, Hcallocs.
        rewrite !app_nil_r. split; reflexivity.
    + split; [apply (unowned_at_update _ _ _ _ Hp Hun); reflexivity|].
      split; reflexivity.
Qed.

Lemma run_ops_preserve b p ops : forall w w',
  contents b = Some p -> unowned_at p w ->
  run_ops b ops w = Ok (tt, w') ->
  unowned_at p w' /\
  callocs (trace w') = callocs (trace w) /\
  freed (trace w') = freed (trace w).
Proof.
  induction ops as [| o ops IH]; intros w w' Hb Hun H; cbn [run_ops] in H.
  - inversion H; subst. repeat split; [exact Hun].
  - apply bind_inv in H as ([] & w1 & Hop & Hrest).
    destruct (run_op_preserves _ _ _ _ _ Hb Hun Hop) as (Hun1 & Hc1 & Hf1).
    destruct (IH _ _ Hb Hun1 Hrest) as (Hun2 & Hc2 & Hf2).
    split; [exact Hun2|]. split; congruence.
Qed.

(** C8. Wrapping an existing descriptor succeeds for a unit-lane type;
    the contents hold the descriptor as given and a null [allocation]; the
    constructor adds no event, so no [calloc]; releasing the handle tears
    the contents down without handing any block to [free]; and the same
    holds after any sequence of operations on the handle, teardown
    included: no [calloc] and no block freed. *)
Theorem wrap_never_owns (rt : Runtime) (t : Type_) (d : buffer_t)
    (n : string) (w0 : World) :
  width t = 1 ->
  exists b w1 c,
    Buffer_wrap rt t (Some d) n w0 = Ok (b, w1) /\
    contents b = Some (new_result rt) /\
    heap w1 !! new_result rt = Some c /\
    buf c = d /\ allocation c = 0 /\
    trace w1 = trace w0 /\
    (exists w2,
       Buffer_release b w1 = Ok (tt, w2) /\
       heap w2 !! new_result rt = None /\
       callocs (trace w2) = callocs (trace w0) /\
       freed (trace w2) = freed (trace w0)) /\
    (forall ops w2,
       run_ops b ops w1 = Ok (tt, w2) ->
       callocs (trace w2) = callocs (trace w0) /\
       freed (trace w2) = freed (trace w0)).
Proof.
  intros Hwidth.
  eexists. eexists. exists (set_ref_count 1 (wrapped_contents rt t d n)).
  split; [apply (Buffer_wrap_ok rt t d n w0 Hwidth)|].
  split; [reflexivity|].
  split; [apply heap_set_heap_insert|].
  split; [reflexivity|]. split; [reflexivity|]. split; [reflexivity|].
  assert (Hun : unowned_at (new_result rt)
                  (set_heap (insert (new_result rt)
                               (set_ref_count 1 (wrapped_contents rt t d n)))
                     (set_heap (insert (new_result rt)
                                  (wrapped_contents rt t d n)) w0))).
  { intros c Hc. rewrite heap_set_heap_insert in Hc. inversion Hc. reflexivity. }
  split.
  - eexists. split.
    + eapply release_last;
        [reflexivity | apply heap_set_heap_insert | reflexivity].
    + split; [cbn; apply lookup_delete_eq|].
      cbn [trace set_heap]. rewrite callocs_app, freed_app. cbn.
      rewrite !app_nil_r. split; reflexivity.
  - intros ops w2 Hops.
    destruct (run_ops_preserve {| contents := Some (new_result rt) |}
                (new_result rt) ops _ _ eq_refl Hun Hops)
      as (_ & Hc & Hf).
    split; [exact Hc | exact Hf].
Qed.

Lemma wrap_never_owns_witness :
  width UInt8 = 1 /\
  exists b w1 c,
    Buffer_wrap sample_runtime UInt8 (Some sample_buf) "" empty_world
    = Ok (b, w1) /\
    contents b = Some 2%positive /\
    heap w1 !! 2%positive = Some c /\
    buf c = sample_buf /\ allocation c = 0 /\
    trace w1 = [] /\
    (exists w2,
       Buffer_release b w1 = Ok (tt, w2) /\
       heap w2 !! 2%positive = None /\
       callocs (trace w2) = [] /\
       freed (trace w2) = []) /\
    (forall ops w2,
       run_ops b ops w1 = Ok (tt, w2) ->
       callocs (trace w2) = [] /\ freed (trace w2) = []).
Proof.
  split; [reflexivity|].
  apply (wrap_never_owns sample_runtime UInt8 sample_buf "" empty_world).
  reflexivity.
Defined.

(** ** Two wrapped buffers, a copy and a write through it *)

Lemma copy_defined b p c w :
  contents b = Some p -> heap w !! p = Some c ->
  Buffer_copy b w
  = Ok ({| contents := contents b |},
        set_heap (insert p (set_ref_count (ref_count c + 1) c)) w).
Proof.
  intros Hb Hp. unfold Buffer_copy. rewrite Hb. cbn [incref].
  rewrite (bind_Ok _ _ _ _ _ (modify_Some _ _ _ _ Hp)). reflexivity.
Qed.

Lemma same_as_is_identity_witness :
  exists b1 w1 b2 w2 b3 w3 w4,
    construct sample_runtime (call_Buffer_wrap UInt8 (Some sample_buf) "a")
      empty_world = Ok (b1, w1) /\
    heap w1 !! new_result another_runtime = None /\
    construct another_runtime (call_Buffer_wrap UInt8 (Some sample_buf) "b")
      w1 = Ok (b2, w2) /\
    Buffer_same_as b1 b2 = false /\
    Buffer_copy b1 w2 = Ok (b3, w3) /\
    Buffer_same_as b1 b3 = true /\
    Buffer_set_min b1 5 6 7 8 w3 = Ok (tt, w4) /\
    Buffer_min b3 2 w4 = Ok (7, w4).
Proof.
  destruct same_as_is_identity as (Hnew & Hcopy & Hvis & _).
  pose proof (Buffer_wrap_ok sample_runtime UInt8 sample_buf "a" empty_world
                eq_refl) as H1.
  remember (set_heap (insert (new_result sample_runtime)
                        (set_ref_count 1
                           (wrapped_contents sample_runtime UInt8 sample_buf "a")))
              (set_heap (insert (new_result sample_runtime)
                           (wrapped_contents sample_runtime UInt8 sample_buf "a"))
                 empty_world)) as w1 eqn:Ew1.
  assert (Hfresh : heap w1 !! new_result another_runtime = None).
  { subst w1. cbn. rewrite !lookup_insert_ne by discriminate. apply lookup_empty. }
  assert (Hlive1 : heap w1 !! 2%positive
                   = Some (set_ref_count 1
                             (wrapped_contents sample_runtime UInt8 sample_buf "a"))).
  { subst w1. apply heap_set_heap_insert. }
  pose proof (Buffer_wrap_ok another_runtime UInt8 sample_buf "b" w1 eq_refl) as H2.
  remember (set_heap (insert (new_result another_runtime)
                        (set_ref_count 1
                           (wrapped_contents another_runtime UInt8 sample_buf "b")))
              (set_heap (insert (new_result another_runtime)
                           (wrapped_contents another_runtime UInt8 sample_buf "b"))
                 w1)) as w2 eqn:Ew2.
  assert (Hlive2 : heap w2 !! 2%positive
                   = Some (set_ref_count 1
                             (wrapped_contents sample_runtime UInt8 sample_buf "a"))).
  { subst w2. cbn. rewrite !lookup_insert_ne by discriminate. exact Hlive1. }
  pose proof (copy_defined {| contents := Some 2%positive |} 2%positive _ w2
                eq_refl Hlive2) as H3.
  destruct (set_min_defined {| contents := Some 2%positive |} 2%positive _ _
              5 6 7 8 eq_refl
              (heap_set_heap_insert 2%positive
                 (set_ref_count
                    (ref_count
                       (set_ref_count 1
                          (wrapped_contents sample_runtime UInt8 sample_buf "a"))
                     + 1)
                    (set_ref_count 1
                       (wrapped_contents sample_runtime UInt8 sample_buf "a")))
                 w2))
    as (w4 & H4 & _ & _).
  destruct (Hnew sample_runtime
              (call_Buffer_wrap UInt8 (Some sample_buf) "a")
              another_runtime
              (call_Buffer_wrap UInt8 (Some sample_buf) "b")
              empty_world _ w1 _ w2 H1 Hfresh H2) as [Hdiff _].
  destruct (Hcopy _ _ _ _ H3) as [Hsame _].
  destruct (Hvis _ _ 5 6 7 8 _ _ Hsame H4) as (_ & _ & Hmin & _).
  do 7 eexists.
  split; [exact H1|]. split; [exact Hfresh|]. split; [exact H2|].
  split; [exact Hdiff|]. split; [exact H3|]. split; [exact Hsame|].
  split; [exact H4 | exact Hmin].
Defined.

(** ** When construction in owning mode succeeds

    The limit on the product of the sizes that are not zero is not only
    enough for the constructor to succeed: it is what the constructor
    checks. *)

Lemma checked_multiply_assert_inv a b r v :
  0 <= a -> 0 <= b ->
  checked_multiply_assert size_t_bits a b r = Ok v ->
  v = a * b /\ a * b < 2 ^ 64.
Proof.
  intros Ha Hb H. unfold checked_multiply_assert, checked_multiply in H.
  destruct (Z.eqb_spec a 0) as [-> | Hne].
  - cbn in H. inversion H. lia.
  - pose proof (quotient_test_exact size_t_bits a b ltac:(unfold size_t_bits; lia)
                  ltac:(lia) Hb) as Hq.
    destruct (Z.eqb_spec (wrap_unsigned size_t_bits (a * b) / a) b) as [He | He];
      cbn in H; [|discriminate].
    apply Hq in He. unfold size_t_bits in He.
    inversion H. unfold wrap_unsigned, size_t_bits.
    rewrite Z.mod_small by nia. lia.
Qed.

Lemma multiply_in_value x size v :
  0 <= x < 2 ^ 31 -> 0 <= size ->
  multiply_in x size = Ok v -> v = size * present x.
Proof.
  intros Hx Hs H. unfold multiply_in, present in *.
  destruct (Z.eqb_spec x 0) as [-> | Hne]; cbn [negb] in H.
  - inversion H. lia.
  - rewrite to_size_t_small in H by lia.
    apply checked_multiply_assert_inv in H; lia.
Qed.

Lemma lift_inv {A} (o : outcome A) w a w' :
  lift o w = Ok (a, w') -> o = Ok a /\ w' = w.
Proof. unfold lift. destruct o; intros H; inversion H; auto. Qed.

(** If construction in owning mode with no external pointer returns, the
    byte count over the sizes that are not zero was under the limit. *)
Lemma owning_construction_only_under_limit rt t x y z w n w0 b w1 :
  1 <= bytes t < 2 ^ 31 ->
  0 <= x < 2 ^ 31 -> 0 <= y < 2 ^ 31 -> 0 <= z < 2 ^ 31 -> 0 <= w < 2 ^ 31 ->
  Buffer_new rt t x y z w 0 n w0 = Ok (b, w1) ->
  byte_count t x y z w < 2 ^ 31 - 1.
Proof.
  intros Hb Hx Hy Hz Hw H. unfold Buffer_new in H.
  apply bind_inv in H as (c & w2 & H & _).
  unfold BufferContents_new in H. cbv zeta in H.
  apply bind_inv in H as (u & w3 & _ & H).
  apply bind_inv in H as (s1 & w4 & H1 & H). apply lift_inv in H1 as [H1 _].
  apply bind_inv in H as (s2 & w5 & H2 & H). apply lift_inv in H2 as [H2 _].
  apply bind_inv in H as (s3 & w6 & H3 & H). apply lift_inv in H3 as [H3 _].
  apply bind_inv in H as (s4 & w7 & H4 & H). apply lift_inv in H4 as [H4 _].
  destruct (present_pos x ltac:(lia)) as [Px _].
  destruct (present_pos y ltac:(lia)) as [Py _].
  destruct (present_pos z ltac:(lia)) as [Pz _].
  destruct (present_pos w ltac:(lia)) as [Pw _].
  apply multiply_in_value in H1; [|lia|lia]. subst s1.
  apply multiply_in_value in H2; [|lia|nia]. subst s2.
  apply multiply_in_value in H3; [|lia|nia]. subst s3.
  apply multiply_in_value in H4; [|lia|nia]. subst s4.
  change (0 =? 0) with true in H. cbv iota in H.
  apply bind_inv in H as (ah & w8 & H & _).
  unfold allocate_host in H.
  apply bind_inv in H as (s5 & w9 & H5 & H). apply lift_inv in H5 as [H5 _].
  rewrite to_size_t_small in H5 by lia.
  apply checked_multiply_assert_inv in H5 as [-> _]; [|nia|lia].
  apply bind_inv in H as (u' & w10 & Hlim & _).
  unfold user_assert in Hlim.
  unfold byte_count. rewrite Z.mul_1_l in Hlim.
  destruct (Z.ltb_spec (present x * present y * present z * present w * bytes t)
              (2 ^ 31 - 1)) as [Hlt | Hge]; [exact Hlt | discriminate].
Qed.

(** * Further properties of the code *)

(** ** Checked multiplication on overflow *)

Lemma checked_multiply_assert_overflow (w a b r : Z) :
  0 <= w -> 0 <= a -> 0 <= b -> 2 ^ w <= a * b ->
  checked_multiply_assert w a b r = Fail (internal_error overflow_msg).
Proof.
  intros Hw Ha Hb Hover.
  assert (Hp : 0 < 2 ^ w) by (apply Z.pow_pos_nonneg; lia).
  unfold checked_multiply_assert, checked_multiply.
  destruct (Z.eqb_spec a 0) as [-> | Hne]; [lia|].
  pose proof (quotient_test_exact w a b Hw ltac:(lia) Hb) as Hq.
  destruct (Z.eqb_spec (wrap_unsigned w (a * b) / a) b) as [He | He].
  - exfalso. apply Hq in He. lia.
  - reflexivity.
Qed.

(** X1. When the product does not fit, [checked_multiply] returns [false]
    and leaves [result] as the caller passed it. *)
Theorem checked_multiply_overflow_keeps_result (w a b r : Z) :
  0 <= w -> 0 <= a -> 0 <= b -> 2 ^ w <= a * b ->
  checked_multiply w a b r = (false, r).
Proof.
  intros Hw Ha Hb Hover.
  assert (Hp : 0 < 2 ^ w) by (apply Z.pow_pos_nonneg; lia).
  unfold checked_multiply.
  destruct (Z.eqb_spec a 0) as [-> | Hne]; [lia|].
  destruct (Z.eqb_spec (wrap_unsigned w (a * b) / a) b) as [He | He].
  - exfalso. apply (quotient_test_exact w a b Hw ltac:(lia) Hb) in He. lia.
  - reflexivity.
Qed.

Lemma checked_multiply_overflow_keeps_result_witness :
  2 ^ 8 <= 16 * 16 /\ checked_multiply 8 16 16 77 = (false, 77).
Proof.
  split; [lia|].
  apply (checked_multiply_overflow_keeps_result 8 16 16 77); lia.
Defined.

(** X2. The two operands may be swapped: verdict and result are the same,
    also when one of them is zero or the product overflows. *)
Theorem checked_multiply_comm (w a b r : Z) :
  0 <= w -> 0 <= a -> 0 <= b ->
  checked_multiply w a b r = checked_multiply w b a r.
Proof.
  intros Hw Ha Hb.
  assert (Hp : 0 < 2 ^ w) by (apply Z.pow_pos_nonneg; lia).
  destruct (Z.lt_ge_cases (a * b) (2 ^ w)) as [Hfit | Hover].
  - rewrite (checked_multiply_fits w a b r Hw Ha Hb Hfit).
    rewrite (checked_multiply_fits w b a r Hw Hb Ha ltac:(lia)).
    f_equal. lia.
  - unfold checked_multiply.
    destruct (Z.eqb_spec a 0) as [-> | Hna]; [lia|].
    destruct (Z.eqb_spec b 0) as [-> | Hnb]; [lia|].
    destruct (Z.eqb_spec (wrap_unsigned w (a * b) / a) b) as [He | He].
    + exfalso. apply (quotient_test_exact w a b Hw ltac:(lia) Hb) in He. lia.
    + destruct (Z.eqb_spec (wrap_unsigned w (b * a) / b) a) as [He' | He'].
      * exfalso. apply (quotient_test_exact w b a Hw ltac:(lia) Ha) in He'. lia.
      * reflexivity.
Qed.

Lemma checked_multiply_comm_witness :
  checked_multiply 64 0 5 9 = checked_multiply 64 5 0 9 /\
  checked_multiply 8 16 32 9 = checked_multiply 8 32 16 9.
Proof.
  split.
  - apply (checked_multiply_comm 64 0 5 9); lia.
  - apply (checked_multiply_comm 8 16 32 9); lia.
Defined.

(** X3. The asserting variant returns the exact product when it fits the
    width and otherwise stops with the internal error
    "Overflow in checked multiply"; there is no third outcome. *)
Theorem checked_multiply_assert_outcome (w a b r : Z) :
  0 <= w -> 0 <= a -> 0 <= b ->
  (a * b < 2 ^ w -> checked_multiply_assert w a b r = Ok (a * b)) /\
  (2 ^ w <= a * b ->
   checked_multiply_assert w a b r = Fail (internal_error overflow_msg)).
Proof.
  intros Hw Ha Hb. split.
  - apply checked_multiply_assert_fits; assumption.
  - apply checked_multiply_assert_overflow; assumption.
Qed.

Lemma checked_multiply_assert_outcome_witness :
  checked_multiply_assert 64 (2 ^ 32) (2 ^ 31) 1 = Ok (2 ^ 32 * 2 ^ 31) /\
  checked_multiply_assert 64 (2 ^ 32) (2 ^ 32) 1
  = Fail (internal_error overflow_msg).
Proof.
  split.
  - apply (checked_multiply_assert_outcome 64 (2 ^ 32) (2 ^ 31) 1); lia.
  - apply (checked_multiply_assert_outcome 64 (2 ^ 32) (2 ^ 32) 1); lia.
Defined.

(** ** The helpers of the copy-elision pass *)

Section CopyElisionHelperFacts.
Context {Function' Expr' Call' : Type}.
Variable has_update_definition : Function' -> bool.
Variable has_extern_definition : Function' -> bool.
Variable values : Function' -> list Expr'.
Variable as_Call : Expr' -> option Call'.
Variable call_type_is_Halide : Call' -> bool.

Lemma scan_values_keeps_prod (vals : list Expr') (prod : string) :
  scan_values as_Call call_type_is_Halide vals prod = prod.
Proof.
  revert prod. induction vals as [| val rest IH]; intros prod; cbn.
  - reflexivity.
  - rewrite IH. destruct (as_Call val) as [call|]; [|reflexivity].
    destruct (call_type_is_Halide call); reflexivity.
Qed.

(** X4. [get_pointwise_copy_producer] returns the empty string for every
    function: with an update or extern definition at once, and otherwise
    because the loop over the values never assigns the producer. *)
Theorem get_pointwise_copy_producer_empty (f : Function') :
  get_pointwise_copy_producer has_update_definition has_extern_definition
    values as_Call call_type_is_Halide f = "".
Proof.
  unfold get_pointwise_copy_producer.
  destruct (has_update_definition f || has_extern_definition f);
    [reflexivity | apply scan_values_keeps_prod].
Qed.

Lemma collect_keeps_or_throws (order : list string)
    (e : gmap string Function') (acc : list CopyPair) :
  (Forall (fun f => is_Some (e !! f)) order ->
   collect_pointwise_copies has_update_definition has_extern_definition
     values as_Call call_type_is_Halide order e acc = inr acc) /\
  (Exists (fun f => e !! f = None) order ->
   collect_pointwise_copies has_update_definition has_extern_definition
     values as_Call call_type_is_Halide order e acc = inl std_out_of_range).
Proof.
  revert acc. induction order as [| f rest IH]; intros acc; cbn.
  - split; [reflexivity|]. intros H. inversion H.
  - split.
    + intros H. inversion H as [| ? ? [fn Hfn] Hrest]; subst.
      rewrite Hfn.
      assert (Hp : get_pointwise_copy_producer has_update_definition
                     has_extern_definition values as_Call
                     call_type_is_Halide fn = "").
      { unfold get_pointwise_copy_producer.
        destruct (has_update_definition fn || has_extern_definition fn);
          [reflexivity | apply scan_values_keeps_prod]. }
      rewrite Hp. cbn. apply (proj1 (IH acc) Hrest).
    + intros H. destruct (e !! f) as [fn|] eqn:Hfn; [|reflexivity].
      inversion H as [? ? Hnone | ? ? Hrest]; subst; [congruence|].
      assert (Hp : get_pointwise_copy_producer has_update_definition
                     has_extern_definition values as_Call
                     call_type_is_Halide fn = "").
      { unfold get_pointwise_copy_producer.
        destruct (has_update_definition fn || has_extern_definition fn);
          [reflexivity | apply scan_values_keeps_prod]. }
      rewrite Hp. cbn. apply (proj2 (IH acc) Hrest).
Qed.

(** X5. [get_pointwise_copies] reports no copy pair when every name of the
    order is a key of the environment, and throws [std::out_of_range] (from
    [env.at]) as soon as one name is not. *)
Theorem get_pointwise_copies_outcome (order : list string)
    (e : gmap string Function') :
  (Forall (fun f => is_Some (e !! f)) order ->
   get_pointwise_copies has_update_definition has_extern_definition
     values as_Call call_type_is_Halide order e = inr []) /\
  (Exists (fun f => e !! f = None) order ->
   get_pointwise_copies has_update_definition has_extern_definition
     values as_Call call_type_is_Halide order e = inl std_out_of_range).
Proof. apply collect_keeps_or_throws. Qed.
End CopyElisionHelperFacts.

Lemma get_pointwise_copies_outcome_witness :
  get_pointwise_copies sample_has_update sample_has_extern sample_values
    id id ["g"; "f"] sample_env = inr [] /\
  get_pointwise_copies sample_has_update sample_has_extern sample_values
    id id ["g"; "h"; "f"] sample_env = inl std_out_of_range.
Proof.
  split.
  - apply (get_pointwise_copies_outcome sample_has_update sample_has_extern
             sample_values id id ["g"; "f"] sample_env).
    repeat constructor; unfold sample_env.
    + rewrite lookup_insert_ne by discriminate. rewrite lookup_insert_eq. eauto.
    + rewrite lookup_insert_eq. eauto.
  - apply (get_pointwise_copies_outcome sample_has_update sample_has_extern
             sample_values id id ["g"; "h"; "f"] sample_env).
    apply Exists_cons_tl, Exists_cons_hd. unfold sample_env.
    rewrite !lookup_insert_ne by discriminate. apply lookup_empty.
Defined.

(** ** How the first constructor fails *)

(** Closed comparisons of integers, by evaluation. *)
Ltac by_value := vm_compute; repeat split; (discriminate || reflexivity).

Lemma lift_Fail {A} (o : outcome A) f w : o = Fail f -> lift o w = Fail f.
Proof. intros ->. reflexivity. Qed.

Lemma multiply_in_overflow x size :
  size_ok x -> 0 <= size < 2 ^ 64 -> 2 ^ 64 <= size * present x ->
  multiply_in x size = Fail (internal_error overflow_msg).
Proof.
  unfold size_ok. intros Hx Hs Hover. unfold multiply_in, present in *.
  destruct (Z.eqb_spec x 0) as [-> | Hne]; [lia|]. cbn [negb].
  rewrite to_size_t_small by lia.
  apply checked_multiply_assert_overflow; unfold size_t_bits; lia.
Qed.

Lemma element_count_steps x y z w :
  size_ok x -> size_ok y -> size_ok z -> size_ok w ->
  1 <= 1 * present x < 2 ^ 64 /\
  1 <= 1 * present x * present y < 2 ^ 64 /\
  1 * present x * present y <= 1 * present x * present y * present z /\
  1 * present x * present y * present z
  <= 1 * present x * present y * present z * present w /\
  1 * present x * present y * present z * present w = element_count x y z w.
Proof.
  unfold size_ok, element_count. intros Hx Hy Hz Hw.
  destruct (present_pos x ltac:(lia)) as [Px Px'].
  destruct (present_pos y ltac:(lia)) as [Py Py'].
  destruct (present_pos z ltac:(lia)) as [Pz Pz'].
  destruct (present_pos w ltac:(lia)) as [Pw Pw'].
  assert (Bx : present x < 2 ^ 31) by (unfold present; destruct (x =? 0); lia).
  assert (By : present y < 2 ^ 31) by (unfold present; destruct (y =? 0); lia).
  set (a := present x) in *. set (b := present y) in *.
  set (c := present z) in *. set (d := present w) in *.
  rewrite !Z.mul_1_l.
  assert (a * b < 2 ^ 64) by nia.
  assert (a * b <= a * b * c) by (apply grow_by_factor; nia).
  assert (a * b * c <= a * b * c * d) by (apply grow_by_factor; nia).
  repeat split; nia.
Qed.

(** The four multiplications of the sizes, followed by anything. *)
Lemma sizes_multiplied {A} x y z w (k : Z -> St A) w0 :
  size_ok x -> size_ok y -> size_ok z -> size_ok w ->
  element_count x y z w < 2 ^ 64 ->
  (size <- lift (multiply_in x 1) ;;
   size <- lift (multiply_in y size) ;;
   size <- lift (multiply_in z size) ;;
   size <- lift (multiply_in w size) ;;
   k size) w0
  = k (element_count x y z w) w0.
Proof.
  intros Hx Hy Hz Hw Hfit.
  destruct (element_count_steps x y z w Hx Hy Hz Hw) as (S1 & S2 & S3 & S4 & S5).
  unfold size_ok in *.
  assert (M1 : multiply_in x 1 = Ok (1 * present x))
    by (apply multiply_in_present; lia).
  assert (M2 : multiply_in y (1 * present x) = Ok (1 * present x * present y))
    by (apply multiply_in_present; lia).
  assert (M3 : multiply_in z (1 * present x * present y)
               = Ok (1 * present x * present y * present z))
    by (apply multiply_in_present; lia).
  assert (M4 : multiply_in w (1 * present x * present y * present z)
               = Ok (1 * present x * present y * present z * present w))
    by (apply multiply_in_present; lia).
  rewrite (bind_Ok _ _ _ _ _ (lift_Ok _ _ _ M1)).
  rewrite (bind_Ok _ _ _ _ _ (lift_Ok _ _ _ M2)).
  rewrite (bind_Ok _ _ _ _ _ (lift_Ok _ _ _ M3)).
  rewrite (bind_Ok _ _ _ _ _ (lift_Ok _ _ _ M4)).
  rewrite S5. reflexivity.
Qed.

Lemma sizes_overflow {A} x y z w (k : Z -> St A) w0 :
  size_ok x -> size_ok y -> size_ok z -> size_ok w ->
  2 ^ 64 <= element_count x y z w ->
  (size <- lift (multiply_in x 1) ;;
   size <- lift (multiply_in y size) ;;
   size <- lift (multiply_in z size) ;;
   size <- lift (multiply_in w size) ;;
   k size) w0
  = Fail (internal_error overflow_msg).
Proof.
  intros Hx Hy Hz Hw Hover.
  destruct (element_count_steps x y z w Hx Hy Hz Hw) as (S1 & S2 & S3 & S4 & S5).
  assert (M1 : multiply_in x 1 = Ok (1 * present x))
    by (apply multiply_in_present; unfold size_ok in *; lia).
  assert (M2 : multiply_in y (1 * present x) = Ok (1 * present x * present y))
    by (apply multiply_in_present; unfold size_ok in *; lia).
  rewrite (bind_Ok _ _ _ _ _ (lift_Ok _ _ _ M1)).
  rewrite (bind_Ok _ _ _ _ _ (lift_Ok _ _ _ M2)).
  destruct (Z.lt_ge_cases (1 * present x * present y * present z) (2 ^ 64))
    as [H3 | H3].
  - assert (M3 : multiply_in z (1 * present x * present y)
                 = Ok (1 * present x * present y * present z))
      by (apply multiply_in_present; unfold size_ok in *; lia).
    rewrite (bind_Ok _ _ _ _ _ (lift_Ok _ _ _ M3)).
    apply bind_Fail, lift_Fail, multiply_in_overflow; [exact Hw | lia | lia].
  - apply bind_Fail, lift_Fail, multiply_in_overflow; [exact Hz | lia | lia].
Qed.

Lemma allocate_host_overflow rt nm e size w :
  0 <= e < 2 ^ 31 -> 0 <= size -> 2 ^ 64 <= size * e ->
  allocate_host rt nm e size w = Fail (internal_error overflow_msg).
Proof.
  intros He Hs Hover. unfold allocate_host.
  apply bind_Fail, lift_Fail. rewrite to_size_t_small by lia.
  apply checked_multiply_assert_overflow; unfold size_t_bits; lia.
Qed.

Lemma allocate_host_too_big rt nm e size w :
  0 <= e < 2 ^ 31 -> 0 <= size -> 2 ^ 31 - 1 <= size * e < 2 ^ 64 ->
  allocate_host rt nm e size w = Fail (user_error (total_size_msg nm)).
Proof.
  intros He Hs Hbig. unfold allocate_host.
  rewrite (bind_Ok _ _ w (size * e) w).
  2:{ apply lift_Ok. rewrite to_size_t_small by lia.
      apply checked_multiply_assert_fits; unfold size_t_bits; lia. }
  apply bind_Fail. unfold user_assert.
  destruct (Z.ltb_spec (size * e) (2 ^ 31 - 1)); [lia | reflexivity].
Qed.

Lemma allocate_host_out_of_memory rt nm e size w :
  0 <= e < 2 ^ 31 -> 0 <= size -> size * e < 2 ^ 31 - 1 ->
  calloc_result rt = 0 ->
  allocate_host rt nm e size w
  = Fail (user_error (out_of_memory_msg nm (size * e + 32))).
Proof.
  intros He Hs Hlim Hnull.
  assert (Hmul : checked_multiply_assert size_t_bits size (to_size_t e) size
                 = Ok (size * e)).
  { rewrite to_size_t_small by lia.
    apply checked_multiply_assert_fits; unfold size_t_bits; lia. }
  cbv [allocate_host bind lift user_assert calloc emit ret].
  rewrite Hmul.
  destruct (Z.ltb_spec (size * e) (2 ^ 31 - 1)) as [_ | Hge]; [|lia].
  rewrite (to_size_t_small (size * e + 32)) by lia.
  rewrite Hnull. reflexivity.
Qed.

Lemma byte_count_split t x y z w :
  byte_count t x y z w = element_count x y z w * bytes t.
Proof. reflexivity. Qed.

Lemma element_count_pos x y z w :
  size_ok x -> size_ok y -> size_ok z -> size_ok w ->
  1 <= element_count x y z w.
Proof.
  intros Hx Hy Hz Hw.
  destruct (element_count_steps x y z w Hx Hy Hz Hw) as (S1 & S2 & S3 & S4 & S5).
  lia.
Qed.

(** The constructor of the contents up to the choice between allocating
    and adopting [data], once the type and the sizes have passed. *)
Lemma BufferContents_new_sized rt t x y z w data n w0 :
  width t = 1 ->
  size_ok x -> size_ok y -> size_ok z -> size_ok w ->
  element_count x y z w < 2 ^ 64 ->
  BufferContents_new rt t x y z w data n w0
  = (ah <- (if data =? 0
            then allocate_host rt (name_or_unique rt n) (bytes t)
                   (element_count x y z w)
            else ret (0, data)) ;;
     ret {| buf := {| host := snd ah;
                      dev := 0;
                      elem_size := bytes t;
                      host_dirty := false;
                      dev_dirty := false;
                      extent := Array4 x y z w;
                      stride := Array4 1 x (to_int (x * y))
                                  (to_int (to_int (x * y) * z));
                      min := Array4 0 0 0 0 |};
            type := t;
            allocation := fst ah;
            ref_count := 0;
            name := name_or_unique rt n;
            source_module := no_module |}) w0.
Proof.
  intros Hwidth Hx Hy Hz Hw Hfit.
  unfold BufferContents_new. cbv zeta. rewrite Hwidth.
  rewrite (bind_Ok _ _ _ _ _ (user_assert_true _ _)).
  apply (sizes_multiplied x y z w
           (fun size =>
            ah <- (if data =? 0
                   then allocate_host rt (name_or_unique rt n) (bytes t) size
                   else ret (0, data)) ;;
            ret {| buf := {| host := snd ah;
                             dev := 0;
                             elem_size := bytes t;
                             host_dirty := false;
                             dev_dirty := false;
                             extent := Array4 x y z w;
                             stride := Array4 1 x (to_int (x * y))
                                         (to_int (to_int (x * y) * z));
                             min := Array4 0 0 0 0 |};
                   type := t;
                   allocation := fst ah;
                   ref_count := 0;
                   name := name_or_unique rt n;
                   source_module := no_module |})
           w0 Hx Hy Hz Hw Hfit).
Qed.

Lemma BufferContents_new_count_overflow rt t x y z w data n w0 :
  width t = 1 ->
  size_ok x -> size_ok y -> size_ok z -> size_ok w ->
  2 ^ 64 <= element_count x y z w ->
  BufferContents_new rt t x y z w data n w0
  = Fail (internal_error overflow_msg).
Proof.
  intros Hwidth Hx Hy Hz Hw Hover.
  unfold BufferContents_new. cbv zeta. rewrite Hwidth.
  rewrite (bind_Ok _ _ _ _ _ (user_assert_true _ _)).
  apply (sizes_overflow x y z w
           (fun size =>
            ah <- (if data =? 0
                   then allocate_host rt (name_or_unique rt n) (bytes t) size
                   else ret (0, data)) ;;
            ret {| buf := {| host := snd ah;
                             dev := 0;
                             elem_size := bytes t;
                             host_dirty := false;
                             dev_dirty := false;
                             extent := Array4 x y z w;
                             stride := Array4 1 x (to_int (x * y))
                                         (to_int (to_int (x * y) * z));
                             min := Array4 0 0 0 0 |};
                   type := t;
                   allocation := fst ah;
                   ref_count := 0;
                   name := name_or_unique rt n;
                   source_module := no_module |})
           w0 Hx Hy Hz Hw Hover).
Qed.

(** X6. A type with more than one lane is refused by all three
    constructors with the same user error, whatever the sizes, the data
    pointer or the descriptor. *)
Theorem vector_type_rejected (rt : Runtime) (t : Type_) (w0 : World) :
  width t <> 1 ->
  (forall x y z w data n,
     Buffer_new rt t x y z w data n w0 = Fail (user_error vector_type_msg)) /\
  (forall sizes data n,
     Buffer_of_sizes rt t sizes data n w0
     = Fail (user_error vector_type_msg)) /\
  (forall d n,
     Buffer_wrap rt t (Some d) n w0 = Fail (user_error vector_type_msg)).
Proof.
  intros Hwidth.
  assert (Hne : (width t =? 1) = false) by (apply Z.eqb_neq, Hwidth).
  assert (Hnew : forall x y z w data n,
             BufferContents_new rt t x y z w data n w0
             = Fail (user_error vector_type_msg)).
  { intros. unfold BufferContents_new. cbv zeta. rewrite Hne. reflexivity. }
  split; [|split].
  - intros. unfold Buffer_new. apply bind_Fail, Hnew.
  - intros. unfold Buffer_of_sizes. apply bind_Fail, Hnew.
  - intros. unfold Buffer_wrap. apply bind_Fail.
    cbv [BufferContents_wrap bind ret user_assert]. rewrite Hne. reflexivity.
Qed.

Lemma vector_type_rejected_witness :
  width UInt8x16 <> 1 /\
  Buffer_new sample_runtime UInt8x16 4 3 0 0 0 "" empty_world
  = Fail (user_error vector_type_msg) /\
  Buffer_wrap sample_runtime UInt8x16 (Some sample_buf) "" empty_world
  = Fail (user_error vector_type_msg).
Proof.
  assert (H : width UInt8x16 <> 1) by discriminate.
  split; [exact H|].
  destruct (vector_type_rejected sample_runtime UInt8x16 empty_world H)
    as (Hnew & _ & Hwrap).
  split; [apply Hnew | apply Hwrap].
Defined.

(** X7. When the byte count of the sizes that are not zero fits 64 bits
    but is 2^31 - 1 or more, construction without a data pointer stops with
    the user error "Total size of buffer <name> exceeds 2^31 - 1", whatever
    [calloc] would have returned. *)
Theorem owning_construction_over_limit (rt : Runtime) (t : Type_)
    (x y z w : Z) (n : string) (w0 : World) :
  width t = 1 -> 1 <= bytes t < 2 ^ 31 ->
  size_ok x -> size_ok y -> size_ok z -> size_ok w ->
  2 ^ 31 - 1 <= byte_count t x y z w < 2 ^ 64 ->
  Buffer_new rt t x y z w 0 n w0
  = Fail (user_error (total_size_msg (buffer_name rt n))).
Proof.
  intros Hwidth Hb Hx Hy Hz Hw Hbig.
  pose proof (element_count_pos x y z w Hx Hy Hz Hw) as Hpos.
  rewrite byte_count_split in Hbig.
  unfold Buffer_new. apply bind_Fail.
  rewrite BufferContents_new_sized by (try assumption; nia).
  apply bind_Fail. change (0 =? 0) with true. cbv iota.
  apply allocate_host_too_big; lia.
Qed.

Lemma owning_construction_over_limit_witness :
  2 ^ 31 - 1 <= byte_count UInt8 65536 65536 0 0 < 2 ^ 64 /\
  Buffer_new sample_runtime UInt8 65536 65536 0 0 0 "big" empty_world
  = Fail (user_error (total_size_msg "big")).
Proof.
  assert (H : 2 ^ 31 - 1 <= byte_count UInt8 65536 65536 0 0 < 2 ^ 64)
    by by_value.
  split; [exact H|].
  apply (owning_construction_over_limit sample_runtime UInt8 65536 65536 0 0
           "big" empty_world);
    [reflexivity | by_value
    | unfold size_ok; lia | unfold size_ok; lia | unfold size_ok; lia
    | unfold size_ok; lia | exact H].
Defined.

(** X8. When the product of the sizes that are not zero, or that product
    times the element size, does not fit 64 bits, construction stops with
    the internal error "Overflow in checked multiply"; with a data pointer
    the first of the two still applies. *)
Theorem owning_construction_overflow (rt : Runtime) (t : Type_)
    (x y z w : Z) (n : string) (w0 : World) :
  width t = 1 -> 1 <= bytes t < 2 ^ 31 ->
  size_ok x -> size_ok y -> size_ok z -> size_ok w ->
  (2 ^ 64 <= byte_count t x y z w ->
   Buffer_new rt t x y z w 0 n w0 = Fail (internal_error overflow_msg)) /\
  (2 ^ 64 <= element_count x y z w ->
   forall data,
     Buffer_new rt t x y z w data n w0 = Fail (internal_error overflow_msg)).
Proof.
  intros Hwidth Hb Hx Hy Hz Hw.
  pose proof (element_count_pos x y z w Hx Hy Hz Hw) as Hpos.
  assert (Hcount : 2 ^ 64 <= element_count x y z w ->
                   forall data,
                     Buffer_new rt t x y z w data n w0
                     = Fail (internal_error overflow_msg)).
  { intros Hover data. unfold Buffer_new.
    apply bind_Fail, BufferContents_new_count_overflow; assumption. }
  split; [|exact Hcount].
  intros Hover. rewrite byte_count_split in Hover.
  destruct (Z.lt_ge_cases (element_count x y z w) (2 ^ 64)) as [Hfit | Hbig].
  - unfold Buffer_new. apply bind_Fail.
    rewrite BufferContents_new_sized by assumption.
    apply bind_Fail. change (0 =? 0) with true. cbv iota.
    apply allocate_host_overflow; lia.
  - apply Hcount, Hbig.
Qed.

Lemma owning_construction_overflow_witness :
  2 ^ 64 <= element_count (2 ^ 30) (2 ^ 30) (2 ^ 30) 0 /\
  Buffer_new sample_runtime UInt8 (2 ^ 30) (2 ^ 30) (2 ^ 30) 0 4096 ""
    empty_world
  = Fail (internal_error overflow_msg).
Proof.
  assert (H : 2 ^ 64 <= element_count (2 ^ 30) (2 ^ 30) (2 ^ 30) 0)
    by by_value.
  split; [exact H|].
  apply (owning_construction_overflow sample_runtime UInt8
           (2 ^ 30) (2 ^ 30) (2 ^ 30) 0 "" empty_world);
    [reflexivity | by_value
    | unfold size_ok; lia | unfold size_ok; lia | unfold size_ok; lia
    | unfold size_ok; lia | exact H].
Defined.

(** X9. When the byte count is under the limit and [calloc] returns null,
    construction stops with the user error "Out of memory allocating buffer
    <name> of size <byte count + 32>". *)
Theorem owning_construction_out_of_memory (rt : Runtime) (t : Type_)
    (x y z w : Z) (n : string) (w0 : World) :
  width t = 1 -> 1 <= bytes t < 2 ^ 31 ->
  size_ok x -> size_ok y -> size_ok z -> size_ok w ->
  byte_count t x y z w < 2 ^ 31 - 1 ->
  calloc_result rt = 0 ->
  Buffer_new rt t x y z w 0 n w0
  = Fail (user_error
            (out_of_memory_msg (buffer_name rt n) (byte_count t x y z w + 32))).
Proof.
  intros Hwidth Hb Hx Hy Hz Hw Hlim Hnull.
  pose proof (element_count_pos x y z w Hx Hy Hz Hw) as Hpos.
  rewrite byte_count_split in *.
  unfold Buffer_new. apply bind_Fail.
  rewrite BufferContents_new_sized by (try assumption; nia).
  apply bind_Fail. change (0 =? 0) with true. cbv iota.
  apply allocate_host_out_of_memory; lia.
Qed.

Lemma owning_construction_out_of_memory_witness :
  byte_count UInt8 4 3 0 0 < 2 ^ 31 - 1 /\
  calloc_result exhausted_runtime = 0 /\
  Buffer_new exhausted_runtime UInt8 4 3 0 0 0 "img" empty_world
  = Fail (user_error (out_of_memory_msg "img" 44)).
Proof.
  assert (H : byte_count UInt8 4 3 0 0 < 2 ^ 31 - 1) by by_value.
  split; [exact H|]. split; [reflexivity|].
  apply (owning_construction_out_of_memory exhausted_runtime UInt8 4 3 0 0
           "img" empty_world);
    [reflexivity | by_value
    | unfold size_ok; lia | unfold size_ok; lia | unfold size_ok; lia
    | unfold size_ok; lia | exact H | reflexivity].
Defined.

(** ** What every successful construction establishes *)

Lemma construct_contents_inv rt k w b w' :
  construct rt k w = Ok (b, w') ->
  exists c w1,
    construct_contents rt k w = Ok (c, w1) /\
    contents b = Some (new_result rt) /\
    heap w' !! new_result rt = Some (set_ref_count (ref_count c + 1) c) /\
    trace w' = trace w1.
Proof.
  destruct k as [t x y z s data n | t sizes data n | t d n];
    cbn [construct construct_contents]; intros H.
  - unfold Buffer_new in H. apply bind_inv in H as (c & w1 & Hc & H).
    rewrite handle_of_contents in H. inversion H; subst; clear H.
    exists c, w1. rewrite heap_set_heap_insert. auto.
  - unfold Buffer_of_sizes in H. apply bind_inv in H as (c & w1 & Hc & H).
    cbv [bind new IntrusivePtr_new incref modify deref ret user_assert] in H.
    rewrite heap_set_heap_insert in H.
    destruct (bool_decide (length sizes <= 4)%nat); [|discriminate].
    inversion H; subst; clear H.
    exists c, w1. rewrite heap_set_heap_insert. auto.
  - unfold Buffer_wrap in H. apply bind_inv in H as (c & w1 & Hc & H).
    rewrite handle_of_contents in H. inversion H; subst; clear H.
    exists c, w1. rewrite heap_set_heap_insert. auto.
Qed.

(** The fields the first constructor sets whenever it returns. *)
Lemma BufferContents_new_fields rt t x y z w data n w0 c w1 :
  BufferContents_new rt t x y z w data n w0 = Ok (c, w1) ->
  type c = t /\ name c = name_or_unique rt n /\
  source_module c = no_module /\ ref_count c = 0 /\
  dev (buf c) = 0 /\ host_dirty (buf c) = false /\ dev_dirty (buf c) = false /\
  elem_size (buf c) = bytes t /\
  extent (buf c) = Array4 x y z w /\ min (buf c) = Array4 0 0 0 0 /\
  (data <> 0 -> host (buf c) = data /\ allocation c = 0 /\ w1 = w0).
Proof.
  intros H. unfold BufferContents_new in H. cbv zeta in H.
  apply bind_inv in H as (u & w2 & Hu & H).
  assert (w2 = w0).
  { unfold user_assert in Hu. destruct (width t =? 1); inversion Hu. reflexivity. }
  subst w2.
  apply bind_inv in H as (s1 & w3 & H1 & H). apply lift_inv in H1 as [_ ->].
  apply bind_inv in H as (s2 & w4 & H2 & H). apply lift_inv in H2 as [_ ->].
  apply bind_inv in H as (s3 & w5 & H3 & H). apply lift_inv in H3 as [_ ->].
  apply bind_inv in H as (s4 & w6 & H4 & H). apply lift_inv in H4 as [_ ->].
  apply bind_inv in H as (ah & w7 & Hah & H).
  inversion H; subst; clear H. cbn.
  do 10 (split; [reflexivity|]).
  intros Hdata. destruct (Z.eqb_spec data 0) as [|_]; [contradiction|].
  inversion Hah. auto.
Qed.

Lemma BufferContents_wrap_fields rt t d n w0 c w1 :
  BufferContents_wrap rt t d n w0 = Ok (c, w1) ->
  type c = t /\ name c = name_or_unique rt n /\ d = Some (buf c).
Proof.
  intros H. unfold BufferContents_wrap in H. cbv zeta in H.
  apply bind_inv in H as (d' & w2 & Hd & H).
  apply bind_inv in H as (u & w3 & _ & H).
  inversion H; subst; clear H. cbn.
  destruct d as [d|]; inversion Hd. auto.
Qed.

Lemma name_given rt n : n <> "" -> buffer_name rt n = n.
Proof.
  intros Hn. unfold buffer_name, name_or_unique, make_buffer_name.
  rewrite (bool_decide_eq_false_2 (n = "") Hn).
  rewrite (bool_decide_eq_false_2 (n = "") Hn). reflexivity.
Qed.

(** X10. Whichever of the three constructors built a buffer, [type()]
    returns the type it was given and [name()] the name it was given when
    that name is not empty; for an empty name, [name()] is what
    [make_entity_name(this, "Halide::Buffer", 'b')] returned, and what
    [unique_name('b')] returned if that is empty too. *)
Theorem constructed_type_and_name (rt : Runtime) (k : constructor_call)
    (w : World) (b : Buffer) (w' : World) :
  construct rt k w = Ok (b, w') ->
  Buffer_type b w' = Ok (constructed_type k, w') /\
  Buffer_name b w' = Ok (buffer_name rt (constructed_name k), w') /\
  (constructed_name k <> "" -> Buffer_name b w' = Ok (constructed_name k, w')) /\
  (constructed_name k = "" ->
   make_entity_name rt "Halide::Buffer" "b"%char <> "" ->
   Buffer_name b w'
   = Ok (make_entity_name rt "Halide::Buffer" "b"%char, w')) /\
  (constructed_name k = "" ->
   make_entity_name rt "Halide::Buffer" "b"%char = "" ->
   Buffer_name b w' = Ok (unique_name rt "b"%char, w')).
Proof.
  intros H.
  destruct (construct_contents_inv _ _ _ _ _ H) as (c & w1 & Hc & Hb & Hp & _).
  assert (Hfields : type c = constructed_type k /\
                    name c = buffer_name rt (constructed_name k)).
  { destruct k as [t x y z s data n | t sizes data n | t d n];
      cbn [construct_contents constructed_type constructed_name] in *.
    - destruct (BufferContents_new_fields _ _ _ _ _ _ _ _ _ _ _ Hc)
        as (Ht & Hn & _). auto.
    - destruct (BufferContents_new_fields _ _ _ _ _ _ _ _ _ _ _ Hc)
        as (Ht & Hn & _). auto.
    - destruct (BufferContents_wrap_fields _ _ _ _ _ _ _ Hc)
        as (Ht & Hn & _). auto. }
  destruct Hfields as [Ht Hn].
  assert (Htype : Buffer_type b w' = Ok (constructed_type k, w')).
  { unfold Buffer_type.
    rewrite (checked_read_defined b _ type _ _ _ Hb Hp). cbn. rewrite Ht.
    reflexivity. }
  assert (Hname : Buffer_name b w'
                  = Ok (buffer_name rt (constructed_name k), w')).
  { unfold Buffer_name. rewrite (read_defined b name _ _ _ Hb Hp). cbn.
    rewrite Hn. reflexivity. }
  split; [exact Htype|]. split; [exact Hname|].
  split; [|split].
  - intros Hne. rewrite Hname, (name_given rt _ Hne). reflexivity.
  - intros Hempty Hentity. rewrite Hname, Hempty.
    unfold buffer_name, make_buffer_name, name_or_unique.
    rewrite (bool_decide_eq_true_2 ("" = "") eq_refl).
    rewrite (bool_decide_eq_false_2 _ Hentity). reflexivity.
  - intros Hempty Hentity. rewrite Hname, Hempty.
    unfold buffer_name, make_buffer_name, name_or_unique.
    rewrite (bool_decide_eq_true_2 ("" = "") eq_refl).
    rewrite (bool_decide_eq_true_2 _ Hentity). reflexivity.
Qed.

Lemma constructed_type_and_name_witness :
  (exists b w',
     construct sample_runtime (call_Buffer_wrap UInt8 (Some sample_buf) "img")
       empty_world = Ok (b, w') /\
     Buffer_type b w' = Ok (UInt8, w') /\
     Buffer_name b w' = Ok ("img", w')) /\
  (exists b w',
     construct sample_runtime (call_Buffer_wrap UInt8 (Some sample_buf) "")
       empty_world = Ok (b, w') /\
     Buffer_name b w' = Ok ("b2", w')) /\
  (exists b w',
     construct nameless_runtime (call_Buffer_wrap UInt8 (Some sample_buf) "")
       empty_world = Ok (b, w') /\
     Buffer_name b w' = Ok ("u7", w')).
Proof.
  split; [|split].
  - pose proof (Buffer_wrap_ok sample_runtime UInt8 sample_buf "img"
                  empty_world eq_refl) as Hwrap.
    destruct (constructed_type_and_name sample_runtime
                (call_Buffer_wrap UInt8 (Some sample_buf) "img")
                empty_world _ _ Hwrap) as (Htype & _ & Hname & _).
    do 2 eexists. split; [exact Hwrap|]. split; [exact Htype|].
    apply Hname. discriminate.
  - pose proof (Buffer_wrap_ok sample_runtime UInt8 sample_buf ""
                  empty_world eq_refl) as Hwrap.
    destruct (constructed_type_and_name sample_runtime
                (call_Buffer_wrap UInt8 (Some sample_buf) "")
                empty_world _ _ Hwrap) as (_ & _ & _ & Hentity & _).
    do 2 eexists. split; [exact Hwrap|].
    apply Hentity; [reflexivity | discriminate].
  - pose proof (Buffer_wrap_ok nameless_runtime UInt8 sample_buf ""
                  empty_world eq_refl) as Hwrap.
    destruct (constructed_type_and_name nameless_runtime
                (call_Buffer_wrap UInt8 (Some sample_buf) "")
                empty_world _ _ Hwrap) as (_ & _ & _ & _ & Hunique).
    do 2 eexists. split; [exact Hwrap|].
    apply Hunique; reflexivity.
Defined.

(** X11. Whenever the first constructor returns a buffer, with or without
    a data pointer and whatever the sizes, the device handle is 0, both
    dirty flags are clear, [extent(i)] is the i-th size as given, every
    [min(i)] is 0 and no device callbacks are bound; with a data pointer,
    [host_ptr()] is that pointer. *)
Theorem new_buffer_state (rt : Runtime) (t : Type_) (x y z w data : Z)
    (n : string) (w0 : World) (b : Buffer) (w1 : World) :
  Buffer_new rt t x y z w data n w0 = Ok (b, w1) ->
  Buffer_device_handle b w1 = Ok (0, w1) /\
  Buffer_host_dirty b w1 = Ok (false, w1) /\
  Buffer_device_dirty b w1 = Ok (false, w1) /\
  (Buffer_extent b 0 w1 = Ok (x, w1) /\ Buffer_extent b 1 w1 = Ok (y, w1) /\
   Buffer_extent b 2 w1 = Ok (z, w1) /\ Buffer_extent b 3 w1 = Ok (w, w1)) /\
  (forall i, 0 <= i < 4 -> Buffer_min b i w1 = Ok (0, w1)) /\
  Buffer_source_module b w1 = Ok (no_module, w1) /\
  (data <> 0 -> Buffer_host_ptr b w1 = Ok (data, w1)).
Proof.
  intros H.
  destruct (construct_contents_inv rt (call_Buffer_new t x y z w data n)
              w0 b w1 H) as (c & w2 & Hc & Hb & Hp & _).
  cbn [construct_contents] in Hc.
  destruct (BufferContents_new_fields _ _ _ _ _ _ _ _ _ _ _ Hc)
    as (_ & _ & Hmod & _ & Hdev & Hhd & Hdd & _ & Hext & Hmin & Hdata).
  split.
  { unfold Buffer_device_handle.
    rewrite (checked_read_defined b _ (fun c => dev (buf c)) _ _ _ Hb Hp).
    cbn. rewrite Hdev. reflexivity. }
  split.
  { unfold Buffer_host_dirty.
    rewrite (checked_read_defined b _ (fun c => host_dirty (buf c)) _ _ _ Hb Hp).
    cbn. rewrite Hhd. reflexivity. }
  split.
  { unfold Buffer_device_dirty.
    rewrite (checked_read_defined b _ (fun c => dev_dirty (buf c)) _ _ _ Hb Hp).
    cbn. rewrite Hdd. reflexivity. }
  split.
  { repeat split; rewrite (extent_defined _ _ _ _ _ Hb Hp) by lia; cbn;
      rewrite Hext; reflexivity. }
  split.
  { intros i Hi. rewrite (min_defined _ _ _ _ _ Hb Hp) by lia. cbn.
    rewrite Hmin.
    destruct (four_cases i Hi) as [-> | [-> | [-> | ->]]]; reflexivity. }
  split.
  { unfold Buffer_source_module.
    rewrite (checked_read_defined b _ source_module _ _ _ Hb Hp).
    cbn. rewrite Hmod. reflexivity. }
  intros Hne. destruct (Hdata Hne) as (Hhost & _ & _).
  rewrite (host_ptr_defined _ _ _ _ Hb Hp). cbn. rewrite Hhost. reflexivity.
Qed.

(** A data pointer makes the constructor skip the allocating branch. *)
Lemma Buffer_new_external_ok rt t x y z w data n w0 :
  width t = 1 ->
  size_ok x -> size_ok y -> size_ok z -> size_ok w ->
  element_count x y z w < 2 ^ 64 -> data <> 0 ->
  exists c,
    Buffer_new rt t x y z w data n w0
    = Ok ({| contents := Some (new_result rt) |},
          set_heap (insert (new_result rt) (set_ref_count 1 c))
            (set_heap (insert (new_result rt) c) w0)) /\
    host (buf c) = data /\ allocation c = 0 /\ ref_count c = 0.
Proof.
  intros Hwidth Hx Hy Hz Hw Hfit Hdata.
  set (c := {| buf := {| host := data;
                         dev := 0;
                         elem_size := bytes t;
                         host_dirty := false;
                         dev_dirty := false;
                         extent := Array4 x y z w;
                         stride := Array4 1 x (to_int (x * y))
                                     (to_int (to_int (x * y) * z));
                         min := Array4 0 0 0 0 |};
               type := t;
               allocation := 0;
               ref_count := 0;
               name := name_or_unique rt (make_buffer_name rt n);
               source_module := no_module |}).
  assert (Hc : BufferContents_new rt t x y z w data (make_buffer_name rt n) w0
               = Ok (c, w0)).
  { rewrite BufferContents_new_sized by assumption.
    destruct (Z.eqb_spec data 0) as [|_]; [contradiction|]. reflexivity. }
  exists c. split; [|auto].
  unfold Buffer_new. rewrite (bind_Ok _ _ _ _ _ Hc).
  apply handle_of_contents.
Qed.

Lemma new_buffer_state_witness :
  exists b w1,
    Buffer_new sample_runtime UInt8 4 3 0 0 4096 "" empty_world = Ok (b, w1) /\
    Buffer_device_handle b w1 = Ok (0, w1) /\
    Buffer_extent b 1 w1 = Ok (3, w1) /\
    Buffer_host_ptr b w1 = Ok (4096, w1).
Proof.
  destruct (Buffer_new_external_ok sample_runtime UInt8 4 3 0 0 4096 ""
              empty_world eq_refl)
    as (c & Hnew & _); [unfold size_ok; lia .. | by_value | discriminate |].
  destruct (new_buffer_state _ _ _ _ _ _ _ _ _ _ _ Hnew)
    as (Hdev & _ & _ & (_ & Hext & _) & _ & _ & Hhost).
  do 2 eexists. split; [exact Hnew|]. split; [exact Hdev|].
  split; [exact Hext | apply Hhost; discriminate].
Defined.

(** X12. With a data pointer and sizes whose product fits 64 bits, the
    constructor succeeds whatever the byte count is (the 2^31 - 1 limit is
    not applied), adopts the pointer as [host_ptr()], owns no allocation and
    calls no [calloc]; no sequence of operations on the handle, teardown
    included, then frees a block, and [destroy] frees none. *)
Theorem external_data_adopted (rt : Runtime) (t : Type_) (x y z w data : Z)
    (n : string) (w0 : World) :
  width t = 1 ->
  size_ok x -> size_ok y -> size_ok z -> size_ok w ->
  element_count x y z w < 2 ^ 64 -> data <> 0 ->
  exists b w1 c,
    Buffer_new rt t x y z w data n w0 = Ok (b, w1) /\
    heap w1 !! new_result rt = Some c /\
    Buffer_host_ptr b w1 = Ok (data, w1) /\
    allocation c = 0 /\
    trace w1 = trace w0 /\
    (forall ops w2,
       run_ops b ops w1 = Ok (tt, w2) ->
       callocs (trace w2) = callocs (trace w0) /\
       freed (trace w2) = freed (trace w0)) /\
    (exists w2,
       destroy (new_result rt) w1 = Ok (tt, w2) /\
       callocs (trace w2) = callocs (trace w0) /\
       freed (trace w2) = freed (trace w0)).
Proof.
  intros Hwidth Hx Hy Hz Hw Hfit Hdata.
  destruct (Buffer_new_external_ok rt t x y z w data n w0 Hwidth Hx Hy Hz Hw
              Hfit Hdata) as (c & Hnew & Hhost & Halloc & Hrc).
  do 2 eexists. exists (set_ref_count 1 c).
  split; [exact Hnew|].
  split; [apply heap_set_heap_insert|].
  split.
  { rewrite (host_ptr_defined {| contents := Some (new_result rt) |}
               (new_result rt) (set_ref_count 1 c));
      [cbn; rewrite Hhost; reflexivity | reflexivity
      | apply heap_set_heap_insert]. }
  split; [exact Halloc|]. split; [reflexivity|].
  assert (Hun : unowned_at (new_result rt)
                  (set_heap (insert (new_result rt) (set_ref_count 1 c))
                     (set_heap (insert (new_result rt) c) w0))).
  { intros c' Hc'. rewrite heap_set_heap_insert in Hc'. inversion Hc'.
    exact Halloc. }
  split.
  - intros ops w2 Hops.
    destruct (run_ops_preserve {| contents := Some (new_result rt) |}
                (new_result rt) ops _ _ eq_refl Hun Hops) as (_ & Hc & Hf).
    split; [exact Hc | exact Hf].
  - eexists. split.
    + apply destroy_Some, heap_set_heap_insert.
    + destruct (teardown_of_unowned (new_result rt) (set_ref_count 1 c) Halloc)
        as [Hfreed Hcallocs].
      cbn [trace set_heap]. rewrite callocs_app, freed_app, Hfreed, Hcallocs.
      rewrite !app_nil_r. split; reflexivity.
Qed.

Lemma external_data_adopted_witness :
  2 ^ 31 - 1 <= byte_count UInt8 65536 65536 0 0 /\
  exists b w1,
    Buffer_new sample_runtime UInt8 65536 65536 0 0 4096 "" empty_world
    = Ok (b, w1) /\
    Buffer_host_ptr b w1 = Ok (4096, w1) /\
    trace w1 = [].
Proof.
  split; [by_value|].
  destruct (external_data_adopted sample_runtime UInt8 65536 65536 0 0 4096 ""
              empty_world eq_refl)
    as (b & w1 & c & Hnew & _ & Hhost & _ & Htrace & _);
    [unfold size_ok; lia .. | by_value | discriminate |].
  exists b, w1. split; [exact Hnew|]. split; [exact Hhost | exact Htrace].
Defined.

(** ** The block an owning buffer allocates and frees *)

(** X13. An owning buffer asks [calloc] once, for the byte count plus 32;
    [host_ptr()] is that block's address rounded up to a multiple of 32;
    and dropping the only handle hands to [free] the address [calloc]
    returned, not the rounded one, then deletes the contents. *)
Theorem owned_block_round_trip (rt : Runtime) (t : Type_) (x y z w : Z)
    (n : string) (w0 : World) :
  width t = 1 -> 1 <= bytes t ->
  0 <= x -> 0 <= y -> 0 <= z -> 0 <= w ->
  byte_count t x y z w < 2 ^ 31 - 1 ->
  valid_block (calloc_result rt) (byte_count t x y z w + 32) ->
  exists b w1 w2,
    Buffer_new rt t x y z w 0 n w0 = Ok (b, w1) /\
    trace w1 = trace w0 ++ [ev_calloc 1 (byte_count t x y z w + 32)
                              (calloc_result rt)] /\
    Buffer_host_ptr b w1 = Ok (align_up (calloc_result rt), w1) /\
    Buffer_release b w1 = Ok (tt, w2) /\
    destroy (new_result rt) w1 = Ok (tt, w2) /\
    trace w2 = trace w1 ++ [ev_free (calloc_result rt);
                            ev_delete (new_result rt)] /\
    heap w2 !! new_result rt = None.
Proof.
  intros Hwidth Hbytes Hx Hy Hz Hw Hlim Hblock.
  pose proof (BufferContents_new_ok rt t x y z w (make_buffer_name rt n) w0
                Hwidth Hbytes Hx Hy Hz Hw Hlim Hblock) as Hc.
  do 3 eexists. split.
  { unfold Buffer_new. rewrite (bind_Ok _ _ _ _ _ Hc). apply handle_of_contents. }
  split; [reflexivity|].
  split.
  { rewrite (host_ptr_defined {| contents := Some (new_result rt) |}
               (new_result rt) _ _ eq_refl (heap_set_heap_insert _ _ _)).
    reflexivity. }
  split.
  { eapply release_last;
      [reflexivity | apply heap_set_heap_insert | reflexivity]. }
  split; [apply destroy_Some, heap_set_heap_insert|].
  split; [reflexivity|].
  cbn. apply lookup_delete_eq.
Qed.

Lemma owned_block_round_trip_witness :
  exists b w1 w2,
    Buffer_new sample_runtime UInt8 4 3 0 0 0 "" empty_world = Ok (b, w1) /\
    trace w1 = [ev_calloc 1 44 65544] /\
    Buffer_host_ptr b w1 = Ok (65568, w1) /\
    Buffer_release b w1 = Ok (tt, w2) /\
    trace w2 = [ev_calloc 1 44 65544; ev_free 65544; ev_delete 2%positive].
Proof.
  assert (Hlim : byte_count UInt8 4 3 0 0 < 2 ^ 31 - 1) by by_value.
  assert (Hblock : valid_block (calloc_result sample_runtime)
                     (byte_count UInt8 4 3 0 0 + 32)) by by_value.
  destruct (owned_block_round_trip sample_runtime UInt8 4 3 0 0 "" empty_world
              eq_refl (bytes_pos UInt8 eq_refl)
              ltac:(lia) ltac:(lia) ltac:(lia) ltac:(lia) Hlim Hblock)
    as (b & w1 & w2 & Hnew & Htr1 & Hhost & Hrel & _ & Htr2 & _).
  exists b, w1, w2. split; [exact Hnew|]. split; [exact Htr1|].
  split; [exact Hhost|]. split; [exact Hrel|].
  rewrite Htr2, Htr1. reflexivity.
Defined.

(** ** Construction from a list of sizes *)

Lemma after_contents {A} (m : St BufferContents) (k1 k2 : BufferContents -> St A) w :
  (forall c w1, m w = Ok (c, w1) -> k1 c w1 = k2 c w1) ->
  bind m k1 w = bind m k2 w.
Proof.
  intros H. unfold bind. destruct (m w) as [[c w1] | f] eqn:Hm; [|reflexivity].
  apply H. reflexivity.
Qed.

(** [size_or_zero] is the element at the index, and 0 past the end. *)
Lemma size_or_zero_nth (sizes : list Z) (index : nat) :
  size_or_zero sizes index = nth index sizes 0.
Proof.
  unfold size_or_zero.
  destruct (decide (index < length sizes)%nat) as [Hlt | Hge].
  - rewrite (bool_decide_eq_true_2 _ Hlt).
    destruct (lookup_lt_is_Some_2 sizes index Hlt) as [v Hv].
    rewrite (list_lookup_total_correct sizes index v Hv).
    rewrite nth_lookup, Hv. reflexivity.
  - rewrite (bool_decide_eq_false_2 _ Hge).
    symmetry. apply nth_overflow. lia.
Qed.

(** X14. With at most four sizes, the constructor that takes a list is the
    constructor that takes four sizes, called with the elements of the list
    in order and 0 for each position the list does not reach: same outcome,
    same handle, same world. *)
Theorem Buffer_of_sizes_pads (rt : Runtime) (t : Type_) (sizes : list Z)
    (data : Z) (n : string) (w0 : World) :
  (length sizes <= 4)%nat ->
  Buffer_of_sizes rt t sizes data n w0
  = Buffer_new rt t (nth 0%nat sizes 0) (nth 1%nat sizes 0)
      (nth 2%nat sizes 0) (nth 3%nat sizes 0) data n w0.
Proof.
  intros Hlen. rewrite <- !size_or_zero_nth.
  unfold Buffer_of_sizes, Buffer_new.
  apply after_contents. intros c w1 _.
  rewrite handle_of_contents.
  cbv [bind new IntrusivePtr_new incref modify deref ret user_assert].
  rewrite heap_set_heap_insert.
  rewrite (bool_decide_eq_true_2 _ Hlen). reflexivity.
Qed.

Lemma Buffer_of_sizes_pads_witness :
  Buffer_of_sizes sample_runtime UInt8 [4; 3] 0 "" empty_world
  = Buffer_new sample_runtime UInt8 4 3 0 0 0 "" empty_world /\
  Buffer_of_sizes sample_runtime UInt8 [] 4096 "" empty_world
  = Buffer_new sample_runtime UInt8 0 0 0 0 4096 "" empty_world /\
  Buffer_of_sizes sample_runtime UInt8 [5; 6; 7; 8] 4096 "" empty_world
  = Buffer_new sample_runtime UInt8 5 6 7 8 4096 "" empty_world.
Proof.
  split; [|split].
  - apply (Buffer_of_sizes_pads sample_runtime UInt8 [4; 3] 0 "" empty_world).
    cbn. lia.
  - apply (Buffer_of_sizes_pads sample_runtime UInt8 [] 4096 "" empty_world).
    cbn. lia.
  - apply (Buffer_of_sizes_pads sample_runtime UInt8 [5; 6; 7; 8] 4096 ""
             empty_world).
    cbn. lia.
Defined.

(** X15. With more than four sizes the constructor never returns a
    buffer. It first builds the contents from the first four sizes: if that
    fails, its error is the outcome; if it succeeds (an owning buffer has
    then been allocated), the outcome is the user error "Buffer dimensions
    greater than 4 are not supported." *)
Theorem Buffer_of_sizes_too_many (rt : Runtime) (t : Type_) (sizes : list Z)
    (data : Z) (n : string) (w0 : World) :
  (4 < length sizes)%nat ->
  Buffer_of_sizes rt t sizes data n w0
  = match Buffer_new rt t (size_or_zero sizes 0) (size_or_zero sizes 1)
            (size_or_zero sizes 2) (size_or_zero sizes 3) data n w0 with
    | Ok _ => Fail (user_error too_many_sizes_msg)
    | Fail f => Fail f
    end.
Proof.
  intros Hlen. unfold Buffer_of_sizes, Buffer_new.
  unfold bind at 1. unfold bind at 4.
  destruct (BufferContents_new rt t (size_or_zero sizes 0)
              (size_or_zero sizes 1) (size_or_zero sizes 2)
              (size_or_zero sizes 3) data (make_buffer_name rt n) w0)
    as [[c w1] | f]; [|reflexivity].
  rewrite handle_of_contents.
  cbv [bind new IntrusivePtr_new incref modify deref ret user_assert].
  rewrite heap_set_heap_insert.
  rewrite bool_decide_eq_false_2 by lia. reflexivity.
Qed.

Lemma Buffer_of_sizes_too_many_witness :
  Buffer_of_sizes sample_runtime UInt8 [2; 2; 2; 2; 2] 4096 "" empty_world
  = Fail (user_error too_many_sizes_msg).
Proof.
  rewrite (Buffer_of_sizes_too_many sample_runtime UInt8 [2; 2; 2; 2; 2] 4096 ""
             empty_world) by (cbn; lia).
  destruct (Buffer_new_external_ok sample_runtime UInt8 2 2 2 2 4096 ""
              empty_world eq_refl)
    as (c & Hnew & _); [unfold size_ok; lia .. | by_value | discriminate |].
  change (size_or_zero [2; 2; 2; 2; 2] 0) with 2.
  change (size_or_zero [2; 2; 2; 2; 2] 1) with 2.
  change (size_or_zero [2; 2; 2; 2; 2] 2) with 2.
  change (size_or_zero [2; 2; 2; 2; 2] 3) with 2.
  rewrite Hnew. reflexivity.
Defined.

(** ** Accessors and mutators of a defined handle *)

(** X16. On a defined handle, [extent], [stride] and [min] refuse an index
    below 0 or above 3 with the user error "We only support 4-dimensional
    buffers for now", before the contents are looked at. *)
Theorem dimension_index_checked (b : Buffer) (dim : Z) (w : World) :
  Buffer_defined b = true -> dim < 0 \/ 4 <= dim ->
  Buffer_extent b dim w = Fail (user_error dimension_msg) /\
  Buffer_stride b dim w = Fail (user_error dimension_msg) /\
  Buffer_min b dim w = Fail (user_error dimension_msg).
Proof.
  intros Hdef Hdim.
  assert (Hrange : in_range dim = false).
  { unfold in_range. destruct Hdim.
    - replace (dim >=? 0) with false by lia. reflexivity.
    - replace (dim <? 4) with false by lia. apply andb_false_r. }
  unfold Buffer_extent, Buffer_stride, Buffer_min.
  rewrite Hdef, Hrange. repeat split.
Qed.

Lemma dimension_index_checked_witness :
  Buffer_extent sample_handle 4 sample_world = Fail (user_error dimension_msg) /\
  Buffer_stride sample_handle 4 sample_world = Fail (user_error dimension_msg) /\
  Buffer_min sample_handle (-1) sample_world = Fail (user_error dimension_msg).
Proof.
  destruct (dimension_index_checked sample_handle 4 sample_world eq_refl
              ltac:(lia)) as (He & Hs & _).
  destruct (dimension_index_checked sample_handle (-1) sample_world eq_refl
              ltac:(lia)) as (_ & _ & Hm).
  split; [exact He|]. split; [exact Hs | exact Hm].
Defined.

(** X17. [dimensions()] of a defined handle is the index of the first
    extent that is zero, 4 when there is none: it lies in [0, 4], every
    extent before it is not zero, and the extent at it is zero when it is
    below 4. Extents after the first zero play no part. *)
Theorem dimensions_first_zero (b : Buffer) (p : loc) (c : BufferContents)
    (w : World) :
  contents b = Some p -> heap w !! p = Some c ->
  exists d,
    Buffer_dimensions b w = Ok (d, w) /\
    0 <= d <= 4 /\
    (forall i, 0 <= i < d -> get4 (extent (buf c)) i <> 0) /\
    (d < 4 -> get4 (extent (buf c)) d = 0).
Proof.
  intros Hb Hp.
  destruct (extent (buf c)) as [e0 e1 e2 e3] eqn:He.
  exists (leading_nonzero [e0; e1; e2; e3]).
  split; [apply (dimensions_defined _ _ _ _ _ _ _ _ Hb Hp He)|].
  cbn [leading_nonzero]. unfold get4. cbn [slot0 slot1 slot2 slot3].
  destruct (Z.eqb_spec e0 0) as [H0 | H0].
  { split; [lia|]. split; [intros i Hi; lia | intros _; exact H0]. }
  destruct (Z.eqb_spec e1 0) as [H1 | H1].
  { split; [lia|]. split; [|intros _; exact H1].
    intros i Hi. assert (i = 0) as -> by lia. exact H0. }
  destruct (Z.eqb_spec e2 0) as [H2 | H2].
  { split; [lia|]. split; [|intros _; exact H2].
    intros i Hi. assert (i = 0 \/ i = 1) as [-> | ->] by lia; assumption. }
  destruct (Z.eqb_spec e3 0) as [H3 | H3].
  { split; [lia|]. split; [|intros _; exact H3].
    intros i Hi.
    assert (i = 0 \/ i = 1 \/ i = 2) as [-> | [-> | ->]] by lia; assumption. }
  split; [lia|]. split; [|intros Hlt; exfalso; cbn in Hlt; lia].
  intros i Hi. cbn in Hi.
  assert (i = 0 \/ i = 1 \/ i = 2 \/ i = 3) as [-> | [-> | [-> | ->]]] by lia;
    assumption.
Qed.

Lemma dimensions_first_zero_witness :
  Buffer_dimensions sample_handle sample_world = Ok (2, sample_world).
Proof.
  destruct (dimensions_first_zero sample_handle 1%positive sample_contents
              sample_world eq_refl sample_world_lookup)
    as (d & Hdim & Hrange & Hbefore & Hat).
  assert (d = 2) as ->; [|exact Hdim].
  destruct (Z.lt_trichotomy d 2) as [Hlt | [Heq | Hgt]]; [|exact Heq|].
  - exfalso. assert (Hd : d < 4) by lia. specialize (Hat Hd).
    assert (d = 0 \/ d = 1) as [-> | ->] by lia; discriminate Hat.
  - exfalso. apply (Hbefore 2); [lia | reflexivity].
Defined.

Lemma host_dirty_defined b p c w :
  contents b = Some p -> heap w !! p = Some c ->
  Buffer_host_dirty b w = Ok (host_dirty (buf c), w).
Proof.
  intros Hb Hp.
  apply (checked_read_defined b _ (fun c => host_dirty (buf c)) p c w Hb Hp).
Qed.

Lemma device_dirty_defined b p c w :
  contents b = Some p -> heap w !! p = Some c ->
  Buffer_device_dirty b w = Ok (dev_dirty (buf c), w).
Proof.
  intros Hb Hp.
  apply (checked_read_defined b _ (fun c => dev_dirty (buf c)) p c w Hb Hp).
Qed.

Lemma device_handle_defined b p c w :
  contents b = Some p -> heap w !! p = Some c ->
  Buffer_device_handle b w = Ok (dev (buf c), w).
Proof.
  intros Hb Hp.
  apply (checked_read_defined b _ (fun c => dev (buf c)) p c w Hb Hp).
Qed.

Lemma source_module_defined b p c w :
  contents b = Some p -> heap w !! p = Some c ->
  Buffer_source_module b w = Ok (source_module c, w).
Proof.
  intros Hb Hp.
  apply (checked_read_defined b _ source_module p c w Hb Hp).
Qed.

Lemma set_min_world b p c w m0 m1 m2 m3 :
  contents b = Some p -> heap w !! p = Some c ->
  exists w',
    Buffer_set_min b m0 m1 m2 m3 w = Ok (tt, w') /\
    heap w' !! p
    = Some (set_buf (fun d =>
              {| host := host d; dev := dev d; elem_size := elem_size d;
                 host_dirty := host_dirty d; dev_dirty := dev_dirty d;
                 extent := extent d; stride := stride d;
                 min := Array4 m0 m1 m2 m3 |}) c) /\
    trace w' = trace w /\
    (forall q, q <> p -> heap w' !! q = heap w !! q).
Proof.
  intros Hb Hp. eexists. split.
  - unfold Buffer_set_min. rewrite (defined_Some _ _ Hb).
    rewrite (bind_Ok _ _ _ _ _ (user_assert_true _ _)).
    rewrite (bind_Ok _ _ _ _ _ (write_defined _ _ _ _ _ Hb Hp)).
    rewrite (bind_Ok _ _ _ _ _
               (write_defined _ _ _ _ _ Hb (heap_set_heap_insert _ _ _))).
    rewrite (bind_Ok _ _ _ _ _
               (write_defined _ _ _ _ _ Hb (heap_set_heap_insert _ _ _))).
    apply (write_defined _ _ _ _ _ Hb (heap_set_heap_insert _ _ _)).
  - split; [rewrite heap_set_heap_insert; reflexivity|].
    split; [reflexivity|].
    intros q Hq. cbn. rewrite !lookup_insert_ne by congruence. reflexivity.
Qed.

(** X18. [set_min] on a defined handle writes the four origins and
    nothing else: afterwards [min(i)] returns the new values, while
    [extent(i)], [stride(i)], [host_ptr()], the device handle and both dirty
    flags read as before, no event has been added and every other contents
    object is untouched. *)
Theorem set_min_changes_only_min (b : Buffer) (p : loc) (c : BufferContents)
    (w : World) (m0 m1 m2 m3 : Z) :
  contents b = Some p -> heap w !! p = Some c ->
  exists w',
    Buffer_set_min b m0 m1 m2 m3 w = Ok (tt, w') /\
    (forall i, 0 <= i < 4 ->
       Buffer_min b i w' = Ok (get4 (Array4 m0 m1 m2 m3) i, w') /\
       Buffer_extent b i w' = Ok (get4 (extent (buf c)) i, w') /\
       Buffer_stride b i w' = Ok (get4 (stride (buf c)) i, w')) /\
    Buffer_host_ptr b w' = Ok (host (buf c), w') /\
    Buffer_device_handle b w' = Ok (dev (buf c), w') /\
    Buffer_host_dirty b w' = Ok (host_dirty (buf c), w') /\
    Buffer_device_dirty b w' = Ok (dev_dirty (buf c), w') /\
    trace w' = trace w /\
    (forall q, q <> p -> heap w' !! q = heap w !! q).
Proof.
  intros Hb Hp.
  destruct (set_min_world b p c w m0 m1 m2 m3 Hb Hp)
    as (w' & Hset & Hp' & Htr & Hother).
  exists w'. split; [exact Hset|].
  split.
  { intros i Hi.
    rewrite (min_defined _ _ _ _ _ Hb Hp' Hi),
            (extent_defined _ _ _ _ _ Hb Hp' Hi),
            (stride_defined _ _ _ _ _ Hb Hp' Hi).
    repeat split. }
  rewrite (host_ptr_defined _ _ _ _ Hb Hp'),
          (device_handle_defined _ _ _ _ Hb Hp'),
          (host_dirty_defined _ _ _ _ Hb Hp'),
          (device_dirty_defined _ _ _ _ Hb Hp').
  repeat split; assumption.
Qed.

Lemma set_min_changes_only_min_witness :
  exists w',
    Buffer_set_min sample_handle 5 6 7 8 sample_world = Ok (tt, w') /\
    Buffer_min sample_handle 3 w' = Ok (8, w') /\
    Buffer_extent sample_handle 0 w' = Ok (4, w') /\
    Buffer_stride sample_handle 1 w' = Ok (4, w') /\
    Buffer_host_ptr sample_handle w' = Ok (4096, w').
Proof.
  destruct (set_min_changes_only_min sample_handle 1%positive sample_contents
              sample_world 5 6 7 8 eq_refl sample_world_lookup)
    as (w' & Hset & Hidx & Hhost & _).
  exists w'. split; [exact Hset|].
  destruct (Hidx 3 ltac:(lia)) as (Hmin & _ & _).
  destruct (Hidx 0 ltac:(lia)) as (_ & Hext & _).
  destruct (Hidx 1 ltac:(lia)) as (_ & _ & Hstr).
  split; [exact Hmin|]. split; [exact Hext|]. split; [exact Hstr | exact Hhost].
Defined.

(** X19. [set_host_dirty(d)] on a defined handle makes [host_dirty()]
    return [d] and changes nothing else that can be read: the device flag,
    the device handle, [host_ptr()], the origins; no event is added. *)
Theorem set_host_dirty_round_trip (b : Buffer) (p : loc) (c : BufferContents)
    (w : World) (dirty : bool) :
  contents b = Some p -> heap w !! p = Some c ->
  exists w',
    Buffer_set_host_dirty b dirty w = Ok (tt, w') /\
    Buffer_host_dirty b w' = Ok (dirty, w') /\
    Buffer_device_dirty b w' = Ok (dev_dirty (buf c), w') /\
    Buffer_device_handle b w' = Ok (dev (buf c), w') /\
    Buffer_host_ptr b w' = Ok (host (buf c), w') /\
    (forall i, 0 <= i < 4 ->
       Buffer_min b i w' = Ok (get4 (min (buf c)) i, w')) /\
    trace w' = trace w /\
    (forall q, q <> p -> heap w' !! q = heap w !! q).
Proof.
  intros Hb Hp. eexists.
  split; [apply (set_host_dirty_defined _ _ _ _ _ Hb Hp)|].
  pose proof (heap_set_heap_insert p
                (set_buf (with_host_dirty dirty) c) w) as Hp'.
  rewrite (host_dirty_defined _ _ _ _ Hb Hp'),
          (device_dirty_defined _ _ _ _ Hb Hp'),
          (device_handle_defined _ _ _ _ Hb Hp'),
          (host_ptr_defined _ _ _ _ Hb Hp').
  do 4 (split; [reflexivity|]).
  split.
  { intros i Hi. rewrite (min_defined _ _ _ _ _ Hb Hp' Hi). reflexivity. }
  split; [reflexivity|].
  intros q Hq. cbn. rewrite lookup_insert_ne by congruence. reflexivity.
Qed.

Lemma set_host_dirty_round_trip_witness :
  exists w',
    Buffer_set_host_dirty sample_handle true sample_world = Ok (tt, w') /\
    Buffer_host_dirty sample_handle w' = Ok (true, w') /\
    Buffer_device_dirty sample_handle w' = Ok (false, w').
Proof.
  destruct (set_host_dirty_round_trip sample_handle 1%positive sample_contents
              sample_world true eq_refl sample_world_lookup)
    as (w' & Hset & Hhost & Hdev & _).
  exists w'. split; [exact Hset|]. split; [exact Hhost | exact Hdev].
Defined.

(** ** Device callbacks that are bound *)

Lemma device_op_bound b which (sel : BufferContents -> option callback)
    p c f w :
  contents b = Some p -> heap w !! p = Some c -> sel c = Some f ->
  (g <- read b sel ;;
   match g with
   | Some g => q <- Buffer_raw_buffer b ;; invoke which g 0 q
   | None => ret tt
   end) w
  = Ok (tt, set_heap (insert p (set_buf (f 0) c))
              (log (ev_call which 0 (buf c)) w)).
Proof.
  intros Hb Hp Hsel.
  rewrite (bind_Ok _ _ _ _ _ (read_defined _ sel _ _ _ Hb Hp)). rewrite Hsel.
  unfold Buffer_raw_buffer. rewrite (defined_Some _ _ Hb).
  rewrite (bind_Ok _ _ w p w).
  - apply (invoke_Some _ _ _ _ _ _ Hp).
  - rewrite (bind_Ok _ _ _ _ _ (user_assert_true _ _)).
    apply (contents_ptr_defined _ _ _ Hb).
Qed.

(** What one call of a bound callback [f] leaves behind. *)
Lemma after_callback which f p c w :
  let w' := set_heap (insert p (set_buf (f 0) c))
              (log (ev_call which 0 (buf c)) w) in
  trace w' = trace w ++ [ev_call which 0 (buf c)] /\
  heap w' !! p = Some (set_buf (f 0) c) /\
  (forall q, q <> p -> heap w' !! q = heap w !! q).
Proof.
  cbv zeta. split; [reflexivity|]. split; [apply heap_set_heap_insert|].
  intros q Hq. cbn. rewrite lookup_insert_ne by congruence. reflexivity.
Qed.

(** X20. On a defined handle with the callback bound, each of
    [copy_to_host()], [copy_to_dev()] and [free_dev_buffer()] calls it
    exactly once, with a null context and the descriptor; afterwards the
    descriptor is what the callback made of it, the rest of the contents and
    all other contents are as before. *)
Theorem bound_callback_invoked (b : Buffer) (p : loc) (c : BufferContents)
    (w : World) :
  contents b = Some p -> heap w !! p = Some c ->
  (forall f, copy_to_host (source_module c) = Some f ->
     exists w',
       Buffer_copy_to_host b w = Ok (tt, w') /\
       trace w' = trace w ++ [ev_call cb_copy_to_host 0 (buf c)] /\
       heap w' !! p = Some (set_buf (f 0) c) /\
       (forall q, q <> p -> heap w' !! q = heap w !! q)) /\
  (forall f, copy_to_dev (source_module c) = Some f ->
     exists w',
       Buffer_copy_to_dev b w = Ok (tt, w') /\
       trace w' = trace w ++ [ev_call cb_copy_to_dev 0 (buf c)] /\
       heap w' !! p = Some (set_buf (f 0) c) /\
       (forall q, q <> p -> heap w' !! q = heap w !! q)) /\
  (forall f, free_dev_buffer (source_module c) = Some f ->
     exists w',
       Buffer_free_dev_buffer b w = Ok (tt, w') /\
       trace w' = trace w ++ [ev_call cb_free_dev_buffer 0 (buf c)] /\
       heap w' !! p = Some (set_buf (f 0) c) /\
       (forall q, q <> p -> heap w' !! q = heap w !! q)).
Proof.
  intros Hb Hp. split; [|split]; intros f Hf; eexists.
  - split; [apply (device_op_bound b cb_copy_to_host
                     (fun c => copy_to_host (source_module c)) p c f w Hb Hp Hf)|].
    apply after_callback.
  - split; [apply (device_op_bound b cb_copy_to_dev
                     (fun c => copy_to_dev (source_module c)) p c f w Hb Hp Hf)|].
    apply after_callback.
  - split; [apply (device_op_bound b cb_free_dev_buffer
                     (fun c => free_dev_buffer (source_module c)) p c f w
                     Hb Hp Hf)|].
    apply after_callback.
Qed.

Lemma bound_callback_invoked_witness :
  exists w',
    Buffer_free_dev_buffer sample_handle (device_world 7) = Ok (tt, w') /\
    trace w' = [ev_call cb_free_dev_buffer 0 (device_buf 7)] /\
    Buffer_device_handle sample_handle w' = Ok (0, w').
Proof.
  destruct (bound_callback_invoked sample_handle 1%positive (device_contents 7)
              (device_world 7) eq_refl (device_world_lookup 7))
    as (_ & _ & Hfree).
  destruct (Hfree clear_dev eq_refl) as (w' & Hop & Htr & Hp & _).
  exists w'. split; [exact Hop|]. split; [exact Htr|].
  rewrite (device_handle_defined sample_handle 1%positive _ w' eq_refl Hp).
  reflexivity.
Defined.

(** X21. [set_source_module(m)] on a defined handle replaces the bound
    callbacks as a whole: [source_module()] then returns [m], the descriptor
    reads as before, no event is added, and a following [copy_to_host()]
    calls [m]'s callback when [m] has one and does nothing when it has
    none, whatever was bound before. *)
Theorem set_source_module_rebinds (b : Buffer) (p : loc) (c : BufferContents)
    (w : World) (m : JITCompiledModule) :
  contents b = Some p -> heap w !! p = Some c ->
  exists w',
    Buffer_set_source_module b m w = Ok (tt, w') /\
    Buffer_source_module b w' = Ok (m, w') /\
    Buffer_host_ptr b w' = Ok (host (buf c), w') /\
    Buffer_device_handle b w' = Ok (dev (buf c), w') /\
    trace w' = trace w /\
    (copy_to_host m = None -> Buffer_copy_to_host b w' = Ok (tt, w')) /\
    (forall f, copy_to_host m = Some f ->
       exists w'',
         Buffer_copy_to_host b w' = Ok (tt, w'') /\
         trace w'' = trace w ++ [ev_call cb_copy_to_host 0 (buf c)] /\
         Buffer_source_module b w'' = Ok (m, w'')).
Proof.
  intros Hb Hp. eexists.
  split; [apply (checked_write_defined b _ (set_module m) p c w Hb Hp)|].
  pose proof (heap_set_heap_insert p (set_module m c) w) as Hp'.
  rewrite (source_module_defined _ _ _ _ Hb Hp'),
          (host_ptr_defined _ _ _ _ Hb Hp'),
          (device_handle_defined _ _ _ _ Hb Hp').
  do 4 (split; [reflexivity|]).
  split.
  - intros Hnone. unfold Buffer_copy_to_host.
    rewrite (bind_Ok _ _ _ _ _
               (read_defined b (fun c => copy_to_host (source_module c))
                  _ _ _ Hb Hp')).
    cbn [set_module source_module]. rewrite Hnone. reflexivity.
  - intros f Hf. eexists. split.
    + apply (device_op_bound b cb_copy_to_host
               (fun c => copy_to_host (source_module c)) p (set_module m c) f
               _ Hb Hp' Hf).
    + split; [reflexivity|].
      rewrite (source_module_defined b p _ _ Hb (heap_set_heap_insert _ _ _)).
      reflexivity.
Qed.

Lemma set_source_module_rebinds_witness :
  exists w' w'',
    Buffer_set_source_module sample_handle sync_module sample_world
    = Ok (tt, w') /\
    Buffer_source_module sample_handle w' = Ok (sync_module, w') /\
    Buffer_copy_to_host sample_handle w' = Ok (tt, w'') /\
    trace w'' = [ev_call cb_copy_to_host 0 sample_buf].
Proof.
  destruct (set_source_module_rebinds sample_handle 1%positive sample_contents
              sample_world sync_module eq_refl sample_world_lookup)
    as (w' & Hset & Hget & _ & _ & _ & _ & Hbound).
  destruct (Hbound mark_host_clean eq_refl) as (w'' & Hcopy & Htr & _).
  exists w', w''. split; [exact Hset|]. split; [exact Hget|].
  split; [exact Hcopy | exact Htr].
Defined.

(** X22. Neither [free_dev_buffer()] on the handle nor [destroy] records
    that the device buffer has been released: after an explicit
    [free_dev_buffer()], tearing the contents down calls the bound callback
    a second time, on the descriptor as the first call left it, and then
    frees the owned allocation. *)
Theorem free_dev_buffer_called_again_at_teardown (b : Buffer) (p : loc)
    (c : BufferContents) (f : callback) (w : World) :
  contents b = Some p -> heap w !! p = Some c ->
  free_dev_buffer (source_module c) = Some f ->
  exists w1 w2,
    Buffer_free_dev_buffer b w = Ok (tt, w1) /\
    destroy p w1 = Ok (tt, w2) /\
    trace w2 = trace w ++ [ev_call cb_free_dev_buffer 0 (buf c);
                           ev_call cb_free_dev_buffer 0 (f 0 (buf c));
                           ev_free (allocation c);
                           ev_delete p] /\
    heap w2 !! p = None.
Proof.
  intros Hb Hp Hf. do 2 eexists.
  split; [apply (device_op_bound b cb_free_dev_buffer
                   (fun c => free_dev_buffer (source_module c)) p c f w
                   Hb Hp Hf)|].
  split; [apply destroy_Some, heap_set_heap_insert|].
  split.
  - cbn [trace set_heap log].
    rewrite (teardown_events_bound p (set_buf (f 0) c) f Hf).
    rewrite <- app_assoc. reflexivity.
  - cbn. apply lookup_delete_eq.
Qed.

Lemma free_dev_buffer_called_again_at_teardown_witness :
  exists w1 w2,
    Buffer_free_dev_buffer sample_handle (device_world 7) = Ok (tt, w1) /\
    destroy 1%positive w1 = Ok (tt, w2) /\
    calls_of cb_free_dev_buffer (trace w2)
    = [(0, device_buf 7); (0, device_buf 0)].
Proof.
  destruct (free_dev_buffer_called_again_at_teardown sample_handle 1%positive
              (device_contents 7) clear_dev (device_world 7)
              eq_refl (device_world_lookup 7) eq_refl)
    as (w1 & w2 & Hfree & Hdestroy & Htr & _).
  exists w1, w2. split; [exact Hfree|]. split; [exact Hdestroy|].
  rewrite Htr. reflexivity.
Defined.
